(** * Poker hand classification, comparison and statistics

    A shallow embedding of [poker_hand.py] and [poker_stats.py].

    Python objects become records, methods become functions that take the
    object's state and return the new one, and a raised exception
    ([IndexError], [ValueError]) is the [None] of the option monad.
    Python integers are [Z]; list lengths are converted with [len]. *)

From stdpp Require Import base list numbers option gmap strings sorting.

Local Open Scope Z_scope.

(** ** Python list and dict operations used by the program *)

Module Py.

(** [len(l)] as a Python integer. *)
Definition len {A} (l : list A) : Z := Z.of_nat (length l).

(** [range(n)]: empty when [n] is not positive. *)
Definition range (n : Z) : list nat := seq 0 (Z.to_nat n).

(** [l[:n]], with Python's reading of a negative bound. *)
Definition slice_to {A} (n : Z) (l : list A) : list A :=
  if 0 <=? n then take (Z.to_nat n) l
  else take (length l - Z.to_nat (- n)) l.

(** [l[i:j]] for non-negative bounds. *)
Definition slice {A} (i j : nat) (l : list A) : list A :=
  take (j - i) (drop i l).

(** [l.insert(0, l.pop())]; [pop] raises [IndexError] on an empty list. *)
Definition pop_to_front {A} (l : list A) : option (list A) :=
  x ← last l; Some (x :: removelast l).

(** One step of a stable descending insertion: [x] stood before every
    element of [l] in the original list, so it stays before the elements
    with an equal key. *)
Fixpoint insert_desc {A} (key : A → Z) (x : A) (l : list A) : list A :=
  match l with
  | [] => [x]
  | y :: l' => if key x <? key y then y :: insert_desc key x l' else x :: l
  end.

(** [l.sort(reverse = True)] and [sorted(l, reverse = True)]: Python's
    sort is stable, also when reversed. *)
Definition sort_desc {A} (key : A → Z) (l : list A) : list A :=
  foldr (insert_desc key) [] l.

Fixpoint insert_asc {A} (key : A → Z) (x : A) (l : list A) : list A :=
  match l with
  | [] => [x]
  | y :: l' => if key y <? key x then y :: insert_asc key x l' else x :: l
  end.

(** [sorted(l)]. *)
Definition sorted {A} (key : A → Z) (l : list A) : list A :=
  foldr (insert_asc key) [] l.

(** [d.setdefault(k, []).append(x)] on a dict of lists. A Python dict
    keeps its keys in insertion order, so it is an association list. *)
Fixpoint setdefault_append {K A} `{EqDecision K}
    (k : K) (x : A) (d : list (K * list A)) : list (K * list A) :=
  match d with
  | [] => [(k, [x])]
  | (k', l) :: d' =>
      if decide (k' = k) then (k', l ++ [x]) :: d'
      else (k', l) :: setdefault_append k x d'
  end.

End Py.

Import Py.

(** ** Cards *)

(** Modelled from the spec: the module [card] ([Card], [Hand], [Deck]) is
    not among the sources. A card is a suit, one of four symbols, and a
    rank, an integer from 1 (the Ace) to 13 (the King). *)
Inductive Suit := Clubs | Diamonds | Hearts | Spades.

#[global] Instance Suit_eq_dec : EqDecision Suit.
Proof. solve_decision. Defined.

Record Card := mkCard { suit : Suit; rank : Z }.

#[global] Instance Card_eq_dec : EqDecision Card.
Proof. solve_decision. Defined.

(** Modelled from the spec: cards are equal, and ordered, by rank only.
    [Card.__eq__] on two cards: *)
Definition Card_eqb (c d : Card) : bool := rank c =? rank d.

(** Modelled from the spec: [Card()], which [__high_card] documents as
    the smallest value: the 2 of the first suit. *)
Definition Card_default : Card := mkCard Clubs 2.

(** [l == m] on two lists of cards: same length and equal cards. *)
Fixpoint cards_eqb (l m : list Card) : bool :=
  match l, m with
  | [], [] => true
  | c :: l', d :: m' => Card_eqb c d && cards_eqb l' m'
  | _, _ => false
  end.

(** [l.remove(c)]: deletes the first card equal to [c]; [ValueError]
    when there is none. *)
Fixpoint remove (c : Card) (l : list Card) : option (list Card) :=
  match l with
  | [] => None
  | d :: l' => if Card_eqb d c then Some l' else (d ::.) <$> remove c l'
  end.

(** Modelled from the spec: a full deck holds each rank of each suit
    once, [len(Card.suit_names) * len(Card.rank_names[1:])] cards. *)
Definition Deck_new : list Card :=
  s ← [Clubs; Diamonds; Hearts; Spades];
  r ← [1; 2; 3; 4; 5; 6; 7; 8; 9; 10; 11; 12; 13];
  [mkCard s r].

(** ** The classifier: [class PokerHand] *)

Module PokerHand.

Definition HIGH_CARD : Z := 0.
Definition PAIR : Z := 1.
Definition TWO_PAIR : Z := 2.
Definition THREE_OF_A_KIND : Z := 3.
Definition STRAIGHT : Z := 4.
Definition FLUSH : Z := 5.
Definition FULL_HOUSE : Z := 6.
Definition FOUR_OF_A_KIND : Z := 7.
Definition STRAIGHT_FLUSH : Z := 8.

Definition MIN_NUM_CARDS : Z := 5.
Definition MAX_NUM_CARDS : Z := 7.

Definition _LABELS : list string :=
  ["high card"; "pair"; "two pair"; "three of a kind"; "straight";
   "flush"; "full house"; "four of a kind"; "straight flush";
   "rest of hand"]%string.

Definition __SEQUENCE : Z := 5.
Definition __MAXLEN_HAND : Z := 3.

(** An element of the list [self.__hand]: the hand type comes first, then
    the cards of the hand, then the rest of the hand if there is one. *)
Inductive item :=
  | HType (htype : Z)
  | HCards (cs : list Card).

#[global] Instance item_eq_dec : EqDecision item.
Proof. solve_decision. Defined.

(** The attributes of a [PokerHand] object. *)
Record t := mk {
  cards : list Card;               (* Hand.cards *)
  label : string;                  (* self.label *)
  normal_flow : bool;              (* self.__normal_flow *)
  cards_copy : list Card;          (* self.__cards_copy *)
  suits : list (Suit * list Card); (* self.__suits *)
  ranks : list (Z * list Card);    (* self.__ranks *)
  hand : list item                 (* self.__hand *)
}.

Definition set_cards (v : list Card) (s : t) : t :=
  mk v (label s) (normal_flow s) (cards_copy s) (suits s) (ranks s) (hand s).
Definition set_label (v : string) (s : t) : t :=
  mk (cards s) v (normal_flow s) (cards_copy s) (suits s) (ranks s) (hand s).
Definition set_cards_copy (v : list Card) (s : t) : t :=
  mk (cards s) (label s) (normal_flow s) v (suits s) (ranks s) (hand s).
Definition set_suits (v : list (Suit * list Card)) (s : t) : t :=
  mk (cards s) (label s) (normal_flow s) (cards_copy s) v (ranks s) (hand s).
Definition set_ranks (v : list (Z * list Card)) (s : t) : t :=
  mk (cards s) (label s) (normal_flow s) (cards_copy s) (suits s) v (hand s).
Definition set_hand (v : list item) (s : t) : t :=
  mk (cards s) (label s) (normal_flow s) (cards_copy s) (suits s) (ranks s) v.

(** [__reset]: the deep copy of the cards is taken in normal flow only. *)
Definition __reset (nf : bool) (s : t) : t :=
  mk (cards s) (label s) nf (if nf then cards s else []) [] [] [].

(** [__add]: extends [self.__hand] with the type and the cards. *)
Definition __add (htype : Z) (cs : list Card) (s : t) : t :=
  let s := set_hand (hand s ++ [HType htype; HCards cs]) s in
  if normal_flow s
  then set_label (default EmptyString (_LABELS !! Z.to_nat htype)) s
  else s.

(** The window scan of [__suit] over the sorted suit [h], for the start
    indices [idxs]: the first window of [__SEQUENCE] cards whose first rank
    is the last rank plus four. *)
Fixpoint suit_scan (h : list Card) (idxs : list nat) : option (option (list Card)) :=
  match idxs with
  | [] => Some None
  | i :: idxs' =>
      c_low ← h !! (i + Z.to_nat __SEQUENCE - 1)%nat;
      let high_card_rank := rank c_low + __SEQUENCE - 1 in
      c_i ← h !! i;
      if bool_decide (rank c_i = high_card_rank)
      then Some (Some (slice i (i + Z.to_nat __SEQUENCE) h))
      else suit_scan h idxs'
  end.

(** The body of [__suit] for one suit of at least [MIN_NUM_CARDS] cards:
    the list of the suit as the method leaves it (it is sorted, and the
    ace may be moved, in place) and the hand that is added. *)
Definition suit_hand (h : list Card) : option (list Card * (Z * list Card)) :=
  let h := sort_desc rank h in
  c_last ← last h;
  let ace := bool_decide (rank c_last = 1) in
  top ← (if ace
         then c ← h !! Z.to_nat (__SEQUENCE - 2);
              Some (bool_decide (rank c = 10))
         else Some false);
  if (top : bool) then
    h ← pop_to_front h;
    Some (h, (STRAIGHT_FLUSH, slice_to __SEQUENCE h))
  else
    found ← suit_scan h (range (len h - __SEQUENCE + 1));
    match found with
    | Some sf => Some (h, (STRAIGHT_FLUSH, sf))
    | None =>
        h ← (if ace then pop_to_front h else Some h);
        Some (h, (FLUSH, slice_to MIN_NUM_CARDS h))
    end.

(** The loop of [__suit] over [self.__suits.values()]: it stops at the
    first suit that is long enough. *)
Fixpoint suit_values (d : list (Suit * list Card))
    : option (list (Suit * list Card) * option (Z * list Card)) :=
  match d with
  | [] => Some ([], None)
  | (k, h) :: d' =>
      if MIN_NUM_CARDS <=? len h then
        '(h', r) ← suit_hand h; Some ((k, h') :: d', Some r)
      else
        '(d'', r) ← suit_values d'; Some ((k, h) :: d'', r)
  end.

(** [__suit]: straight flush and flush. *)
Definition __suit (s : t) : option t :=
  if len (suits s) <=? len (cards s) - MIN_NUM_CARDS + 1 then
    '(d, r) ← suit_values (suits s);
    let s := set_suits d s in
    match r with
    | Some (htype, cs) => Some (__add htype cs s)
    | None => Some s
    end
  else Some s.

(** [ranks[i][1][0]]: the first card of the [i]-th rank. *)
Definition first_card (ranks : list (Z * list Card)) (i : nat) : option Card :=
  g ← ranks !! i; head g.2.

(** The window scan of [__straight] over the sorted ranks. *)
Fixpoint straight_scan (ranks : list (Z * list Card)) (s : t) (idxs : list nat)
    : option (bool * t) :=
  match idxs with
  | [] => Some (false, s)
  | i :: idxs' =>
      g_low ← ranks !! (i + Z.to_nat __SEQUENCE - 1)%nat;
      let high_card_rank := g_low.1 + __SEQUENCE - 1 in
      g_i ← ranks !! i;
      if bool_decide (g_i.1 = high_card_rank) then
        cs ← mapM (first_card ranks) (seq i (Z.to_nat __SEQUENCE));
        Some (true, __add STRAIGHT cs s)
      else straight_scan ranks s idxs'
  end.

(** [__straight]: the flag it returns and the new state. *)
Definition __straight (ranks : list (Z * list Card)) (ace : option Card)
    (s : t) : option (bool * t) :=
  if __SEQUENCE <=? len ranks then
    top ← match ace with
          | Some a =>
              g ← ranks !! Z.to_nat (__SEQUENCE - 2);
              Some (if bool_decide (g.1 = 10) then Some a else None)
          | None => Some None
          end;
    match top with
    | Some a =>
        cs ← mapM (first_card ranks) (range (__SEQUENCE - 1));
        Some (true, __add STRAIGHT (a :: cs) s)
    | None => straight_scan ranks s (range (len ranks - __SEQUENCE + 1))
    end
  else Some (false, s).

(** [__full_house]: the flag it returns, [same_hand] as the call leaves it
    (it is extended in place when no full house is found) and the state. *)
Definition __full_house (h same_hand complementary_hand : list Card) (s : t)
    : bool * list Card * t :=
  match complementary_hand with
  | _ :: _ =>
      if bool_decide (len h = 2)
      then (true, same_hand, __add FULL_HOUSE (complementary_hand ++ h) s)
      else (true, same_hand,
            __add FULL_HOUSE (h ++ slice_to 2 complementary_hand) s)
  | [] =>
      if bool_decide (len same_hand = 3)
      then (true, same_hand, __add FULL_HOUSE (same_hand ++ slice_to (-1) h) s)
      else (false, same_hand ++ h, s)
  end.

(** The loop of [__rank] over the sorted ranks. [inl] is a [return] from
    inside the loop; [inr] is the end of the loop, with [three] and
    [pairs] as they stand. *)
Fixpoint rank_loop (rs : list (Z * list Card)) (three pairs : list Card)
    (s : t) : t + (list Card * list Card * t) :=
  match rs with
  | [] => inr (three, pairs, s)
  | g :: rs' =>
      if bool_decide (len g.2 = 2) then
        let '(found, pairs', s') := __full_house g.2 pairs three s in
        if found then inl s' else rank_loop rs' three pairs' s'
      else if bool_decide (len g.2 = 3) then
        let '(found, three', s') := __full_house g.2 three pairs s in
        if found then inl s' else rank_loop rs' three' pairs s'
      else if bool_decide (len g.2 = 4) then
        inl (__add FOUR_OF_A_KIND g.2 s)
      else rank_loop rs' three pairs s
  end.

(** [__rank]: four of a kind, full house, straight, three of a kind, two
    pair and pair. [sorted] compares the items by their rank first, and
    the ranks of a dict are distinct. *)
Definition __rank (s : t) : option t :=
  match hand s with
  | [] =>
      let rs := sort_desc fst (ranks s) in
      g_last ← last rs;
      ace ← (if bool_decide (g_last.1 = 1)
             then c ← head g_last.2; Some (Some c)
             else Some None);
      '(found, s) ← __straight rs ace s;
      if (found : bool) then Some s
      else
        rs ← (if ace is Some _ then pop_to_front rs else Some rs);
        match rank_loop rs [] [] s with
        | inl s => Some s
        | inr (three, pairs, s) =>
            if bool_decide (len pairs = 2) then Some (__add PAIR pairs s)
            else if pairs is _ :: _
                 then Some (__add TWO_PAIR (slice_to 4 pairs) s)
            else if three is _ :: _
                 then Some (__add THREE_OF_A_KIND three s)
            else Some s
        end
  | _ :: _ => Some s
  end.

(** The loop of [__high_card]: an ace ends it. *)
Fixpoint high_card_loop (cs : list Card) (high_card : Card) : Card :=
  match cs with
  | [] => high_card
  | card :: cs' =>
      if bool_decide (rank card = 1) then card
      else if bool_decide (rank card > rank high_card)
           then high_card_loop cs' card
           else high_card_loop cs' high_card
  end.

Definition __high_card (s : t) : Card := high_card_loop (cards s) Card_default.

(** [self.__hand[0]] as a hand type and [self.__hand[i]] as a list of
    cards. *)
Definition get_htype (h : list item) : option Z :=
  match h !! 0%nat with Some (HType htype) => Some htype | _ => None end.

Definition get_cards (i : nat) (h : list item) : option (list Card) :=
  match h !! i with Some (HCards cs) => Some cs | _ => None end.

(** The loop of [__rest] that deletes the cards of the hand from the
    copy. *)
Fixpoint remove_all (cs copy : list Card) : option (list Card) :=
  match cs with
  | [] => Some copy
  | card :: cs' => copy ← remove card copy; remove_all cs' copy
  end.

(** [__rest]: the rest of the hand, if any. [copy.deepcopy] of a list of
    cards is the list itself, cards being values here. *)
Definition __rest (s : t) : option t :=
  if bool_decide (len (hand s) = __MAXLEN_HAND - 1) then
    h1 ← get_cards 1 (hand s);
    let rest := MIN_NUM_CARDS - len h1 in
    if bool_decide (rest ≠ 0) then
      copy ← remove_all h1 (cards_copy s);
      let copy := sort_desc rank copy in
      c_last ← last copy;
      copy ← (if bool_decide (rank c_last = 1)
              then pop_to_front copy else Some copy);
      let s := set_hand (hand s ++ [HCards (slice_to rest copy)]) s in
      Some (set_cards_copy (copy ++ h1) s)
    else Some s
  else Some s.

(** [__update]: whether the hand needs classification. *)
Definition __update (print_error : bool) (s : t) : bool * t :=
  if bool_decide (len (cards s) < MIN_NUM_CARDS) then (false, __reset true s)
  else if cards_eqb (sorted rank (cards_copy s)) (sorted rank (cards s))
       then (false, s)
       else (true, s).

(** The loop of [classify] that fills [self.__suits] and [self.__ranks]. *)
Definition populate (s : t) : t :=
  foldl (λ s card,
           set_ranks (setdefault_append (rank card) card (ranks s))
             (set_suits (setdefault_append (suit card) card (suits s)) s))
        s (cards s).

(** [classify]. The list it returns is [self.__hand], the field [hand] of
    the state it leaves. *)
Definition classify (nf print_error : bool) (s : t) : option t :=
  let '(go, s) := if negb nf then (true, s) else __update print_error s in
  if (go : bool) then
    let s := populate (__reset nf s) in
    s ← __suit s;
    s ← __rank s;
    let s := if hand s is [] then __add HIGH_CARD [__high_card s] s else s in
    if normal_flow s then __rest s else Some s
  else Some s.

(** [Hand.__init__], modelled from the spec: a hand with no cards. The
    attributes of [PokerHand] are left as they are. *)
Definition Hand_init (s : t) : t := set_label EmptyString (set_cards [] s).

(** The constructor of [PokerHand]: at most [MAX_NUM_CARDS] cards are taken. *)
Definition __init__ (cs : list Card) : option t :=
  let s := mk (slice_to MAX_NUM_CARDS cs) EmptyString false [] [] [] [] in
  let s := __reset false s in
  if cs is [] then Some s else classify true true s.

(** [add_card]: the flag it returns and the state. *)
Definition add_card (card : Card) (s : t) : bool * t :=
  if normal_flow s && bool_decide (len (cards s) = MAX_NUM_CARDS)
  then (false, s)
  else (true, set_cards (cards s ++ [card]) s).

(** ** The comparator *)

Fixpoint _compare_eq (cs other_cards : list Card) : bool :=
  match cs, other_cards with
  | card :: cs', other_card :: os' =>
      if bool_decide (rank card ≠ rank other_card) then false
      else _compare_eq cs' os'
  | _, _ => true
  end.

(** [None] is Python's [None]: all cards are equal. *)
Fixpoint _compare_lt (cs other_cards : list Card) : option bool :=
  match cs, other_cards with
  | card :: cs', other_card :: os' =>
      if bool_decide (rank card ≠ 1)
         && (bool_decide (rank card < rank other_card)
             || bool_decide (rank other_card = 1))
      then Some true
      else if bool_decide (rank other_card ≠ 1)
              && (bool_decide (rank card > rank other_card)
                  || bool_decide (rank card = 1))
      then Some false
      else _compare_lt cs' os'
  | _, _ => None
  end.

(** What a comparison method returns. *)
Inductive answer := NotImplemented | Bool (b : bool).

(** [__eq__]: the answer and the two objects, which it classifies. *)
Definition __eq__ (self other : t) : option (answer * t * t) :=
  self ← classify true true self;
  other ← classify true true other;
  let other_hand := hand other in
  r ← (if bool_decide (hand self ≠ []) && bool_decide (other_hand ≠ []) then
         t1 ← get_htype (hand self);
         t2 ← get_htype other_hand;
         same ← (if bool_decide (t1 = t2)
                 then c1 ← get_cards 1 (hand self);
                      c2 ← get_cards 1 other_hand;
                      Some (_compare_eq c1 c2)
                 else Some false);
         if (same : bool) then
           if bool_decide (len (hand self) = __MAXLEN_HAND) then
             r1 ← get_cards 2 (hand self);
             r2 ← get_cards 2 other_hand;
             Some (Bool (_compare_eq r1 r2))
           else Some (Bool true)
         else Some (Bool false)
       else Some NotImplemented);
  Some (r, self, other).

(** [__lt__]. *)
Definition __lt__ (self other : t) : option (answer * t * t) :=
  self ← classify true true self;
  other ← classify true true other;
  let other_hand := hand other in
  r ← (if bool_decide (hand self ≠ []) && bool_decide (other_hand ≠ []) then
         t1 ← get_htype (hand self);
         t2 ← get_htype other_hand;
         if bool_decide (t1 < t2) then Some (Bool true)
         else if bool_decide (t1 = t2) then
           c1 ← get_cards 1 (hand self);
           c2 ← get_cards 1 other_hand;
           match _compare_lt c1 c2 with
           | None =>
               if bool_decide (len (hand self) = __MAXLEN_HAND) then
                 r1 ← get_cards 2 (hand self);
                 r2 ← get_cards 2 other_hand;
                 Some (Bool (default false (_compare_lt r1 r2)))
               else Some (Bool false)
           | Some b => Some (Bool b)
           end
         else Some (Bool false)
       else Some NotImplemented);
  Some (r, self, other).

(** The three outcomes of [compare]: the sentence it adds to the
    description of two hands. *)
Inductive outcome :=
  | Equal    (* the two hands are equal *)
  | Greater  (* 'this hand' is better *)
  | Less.    (* 'other hand' is better *)

(** What [compare] returns. *)
Inductive description :=
  | Itself                (* 'comparing poker hand object to itself' *)
  | Hands (o : outcome).  (* both hands described, then the sentence of [o] *)

(** [compare] tells one object from two: the hands live in a store, a
    reference is an index of it, and [other is self] compares the
    references. The method returns the description and leaves the store
    with both hands classified.

    On one object nothing is compared and nothing is classified. On two
    objects [self == other] is [__eq__], and [NotImplemented] from both
    sides ends in the identity test, which is false there.
    [self > other] is the reflected [other.__lt__(self)], the class having
    no [__gt__]; [NotImplemented] there is a [TypeError], so that the
    sentence for [result is None] is never reached. *)
Definition compare (self other : nat) (σ : list t)
    : option (description * list t) :=
  if bool_decide (other = self) then
    _ ← σ !! self; Some (Itself, σ)
  else
    a ← σ !! self;
    b ← σ !! other;
    '(r, a, b) ← __eq__ a b;
    if (if r is Bool true then true else false)
    then Some (Hands Equal, <[other:=b]> (<[self:=a]> σ))
    else
      '(r, b, a) ← __lt__ b a;
      let σ := <[other:=b]> (<[self:=a]> σ) in
      match r with
      | Bool true => Some (Hands Greater, σ)
      | Bool false => Some (Hands Less, σ)
      | NotImplemented => None
      end.

End PokerHand.

(** ** The statistics: [class PokerStats] *)

Module PokerStats.

Definition NONE : Z := 0.
Definition UPDATE : Z := 1.
Definition APPEND : Z := 2.
Definition ITERATIONS : Z := 10000.

(** [len(Card.suit_names) * len(Card.rank_names[1:])], modelled from the
    spec: four suits of thirteen ranks. *)
Definition CARDS_PER_DECK : Z := 4 * 13.

(** The attributes of a [PokerStats] object. The lists of references of
    the base class [AdderWithRefCount] play no part in the statistics and
    are left out. *)
Record t := mk {
  iterations : Z;        (* self.__iterations *)
  cards_per_hand : Z;    (* self.__cards_per_hand *)
  operation : Z;         (* self.__operation *)
  hands_per_deck : Z;    (* self.__hands_per_deck *)
  histogram : gmap Z Z;  (* self.__histogram *)
  samples : Z            (* self.__samples *)
}.

(** [PokerStats()]. *)
Definition __init__ : t :=
  mk ITERATIONS PokerHand.MAX_NUM_CARDS UPDATE
     (CARDS_PER_DECK / PokerHand.MAX_NUM_CARDS) ∅ 0.

(** [_param_error], for parameters that are integers. *)
Definition _param_error (its cph op : Z) : bool :=
  if bool_decide (its < 1) then true
  else if negb (bool_decide
                  (PokerHand.MIN_NUM_CARDS ≤ cph ≤ PokerHand.MAX_NUM_CARDS))
  then true
  else if negb (bool_decide (0 ≤ op < APPEND + 1)) then true
  else false.

(** [__clear]. *)
Definition __clear (s : t) : t :=
  mk (iterations s) (cards_per_hand s) (operation s) (hands_per_deck s) ∅ 0.

(** [__set]: the flag it returns and the state. *)
Definition __set (its cph op : Z) (s : t) : bool * t :=
  let clear_if_update (s : t) :=
    if bool_decide (samples s ≠ 0) && bool_decide (operation s = UPDATE)
    then __clear s else s in
  if bool_decide (iterations s ≠ its) || bool_decide (cards_per_hand s ≠ cph)
     || bool_decide (operation s ≠ op) then
    if _param_error its cph op then (false, s)
    else if bool_decide (op = APPEND) && bool_decide (cards_per_hand s ≠ cph)
            && bool_decide (histogram s ≠ ∅)
    then (false, s)
    else
      (true,
       clear_if_update
         (mk its cph op (CARDS_PER_DECK / cph) (histogram s) (samples s)))
  else (true, clear_if_update s).

(** [d.setdefault(k, 0)] followed by [d[k] += 1]. *)
Definition increment (k : Z) (d : gmap Z Z) : gmap Z Z :=
  let d := if d !! k is Some _ then d else <[k := 0]> d in
  <[k := default 0 (d !! k) + 1]> d.

(** Modelled from the spec: [deck.move_cards(hand, num)] deals [num]
    cards of the deck to the hand, one [add_card] each; an empty deck is
    an [IndexError]. *)
Fixpoint move_cards (num : nat) (deck : list Card) (h : PokerHand.t)
    : option (list Card * PokerHand.t) :=
  match num with
  | O => Some (deck, h)
  | S num' =>
      card ← last deck;
      move_cards num' (removelast deck) (PokerHand.add_card card h).2
  end.

(** The inner loop of [__generate], [n] hands from one shuffled deck. *)
Fixpoint deal_loop (n : nat) (cph : Z) (deck : list Card) (h : PokerHand.t)
    (hist : gmap Z Z) : option (list Card * PokerHand.t * gmap Z Z) :=
  match n with
  | O => Some (deck, h, hist)
  | S n' =>
      '(deck, h) ← move_cards (Z.to_nat cph) deck h;
      h ← PokerHand.classify false true h;
      let current_hand := PokerHand.hand h in
      hist ← (if current_hand is [] then Some hist
              else htype ← PokerHand.get_htype current_hand;
                   Some (increment htype hist));
      deal_loop n' cph deck (PokerHand.Hand_init h) hist
  end.

(** The outer loop of [__generate] over the iterations [idxs].
    Modelled from the spec: [deck.shuffle()] reorders the deck at random;
    [shuffle i] is the reordering of iteration [i]. [deck.__init__()]
    makes the deck full again. *)
Fixpoint iter_loop (shuffle : nat → list Card → list Card) (idxs : list nat)
    (cph hpd : Z) (deck : list Card) (h : PokerHand.t) (hist : gmap Z Z)
    : option (list Card * PokerHand.t * gmap Z Z) :=
  match idxs with
  | [] => Some (deck, h, hist)
  | i :: idxs' =>
      let deck := shuffle i deck in
      '(_, h, hist) ← deal_loop (Z.to_nat hpd) cph deck h hist;
      iter_loop shuffle idxs' cph hpd Deck_new h hist
  end.

(** [__generate]: the flag it returns and the state. *)
Definition __generate (shuffle : nat → list Card → list Card)
    (its cph op : Z) (s : t) : option (bool * t) :=
  if bool_decide (op ≠ 0) then
    let '(ok, s) := __set its cph op s in
    if (ok : bool) then
      h ← PokerHand.__init__ [];
      '(_, _, hist) ← iter_loop shuffle (range (iterations s))
                        (cards_per_hand s) (hands_per_deck s) Deck_new h
                        (histogram s);
      Some (true,
            mk (iterations s) (cards_per_hand s) (operation s)
               (hands_per_deck s) hist
               (samples s + iterations s * hands_per_deck s))
    else Some (false, s)
  else Some (true, s).

Definition update shuffle (its cph : Z) (s : t) : option (bool * t) :=
  __generate shuffle its cph UPDATE s.

Definition append shuffle (its cph : Z) (s : t) : option (bool * t) :=
  __generate shuffle its cph APPEND s.

(** [sum(self.__histogram.values())]. *)
Definition total (hist : gmap Z Z) : Z :=
  map_fold (λ _ freq acc, freq + acc) 0 hist.

End PokerStats.

(** * Properties *)

Import PokerHand.

(** ** What a step of the classifier leaves alone *)

(** The card list, the flow flag and the copy of the cards: the steps
    between [__reset] and [__rest] change none of them. *)
Definition same_base (s s' : t) : Prop :=
  cards s' = cards s ∧ normal_flow s' = normal_flow s
  ∧ cards_copy s' = cards_copy s.

#[global] Instance same_base_refl : Reflexive same_base.
Proof. by intros s. Qed.

#[global] Instance same_base_trans : Transitive same_base.
Proof. intros s1 s2 s3 (?&?&?) (?&?&?). repeat split; congruence. Qed.

Lemma add_base htype cs s : same_base s (__add htype cs s).
Proof. unfold __add. simpl. by destruct (normal_flow s). Qed.

Lemma add_hand htype cs s :
  hand (__add htype cs s) = hand s ++ [HType htype; HCards cs].
Proof. unfold __add. simpl. by destruct (normal_flow s). Qed.

Lemma suit_base s s' : __suit s = Some s' → same_base s s'.
Proof.
  unfold __suit. intros H. case_match; simplify_option_eq; [|done].
  destruct (suit_values (suits s)) as [[d r]|]; simplify_eq/=.
  destruct r as [[htype cs]|]; simplify_eq/=; [|done].
  etrans; [|apply add_base]. done.
Qed.

Lemma straight_scan_base rs s idxs b s' :
  straight_scan rs s idxs = Some (b, s') → same_base s s'.
Proof.
  induction idxs as [|i idxs IH]; simpl; intros H; simplify_option_eq; auto.
  - done.
  - apply add_base.
Qed.

Lemma straight_base rs ace s b s' :
  __straight rs ace s = Some (b, s') → same_base s s'.
Proof.
  unfold __straight. intros H. case_match; simplify_option_eq; [|done].
  repeat case_match; simplify_option_eq;
    eauto using add_base, straight_scan_base.
Qed.

Lemma full_house_base h same comp s b same' s' :
  __full_house h same comp s = (b, same', s') → same_base s s'.
Proof.
  unfold __full_house. intros H.
  repeat case_match; simplify_eq; auto using add_base; done.
Qed.

Lemma rank_loop_base rs three pairs s :
  match rank_loop rs three pairs s with
  | inl s' => same_base s s'
  | inr (_, _, s') => same_base s s'
  end.
Proof.
  revert three pairs s. induction rs as [|g rs IH]; intros three pairs s; simpl.
  - done.
  - repeat case_match; simplify_eq;
      try match goal with
          | H : __full_house _ _ _ _ = _ |- _ => apply full_house_base in H
          end;
      try match goal with
          | H : rank_loop rs ?a ?b ?c = _ |- _ =>
              let X := fresh in pose proof (IH a b c) as X; rewrite H in X
          end;
      try done; try (by etrans); apply add_base.
Qed.

Lemma rank_base s s' : __rank s = Some s' → same_base s s'.
Proof.
  unfold __rank. intros H. destruct (hand s) eqn:E; [|by simplify_eq].
  destruct (last _) as [g_last|]; simplify_eq/=.
  destruct (if bool_decide _ then _ else _) as [ace|]; simplify_eq/=.
  destruct (__straight _ _ _) as [[found s1]|] eqn:Hs; simplify_eq/=.
  apply straight_base in Hs.
  destruct found; simplify_eq/=; [done|].
  destruct (if ace is Some _ then _ else _) as [rs|]; simplify_eq/=.
  pose proof (rank_loop_base rs [] [] s1) as Hl.
  destruct (rank_loop rs [] [] s1) as [s2|[[three pairs] s2]]; simplify_eq/=.
  { by etrans. }
  repeat case_match; simplify_eq; try (by etrans);
    (etrans; [eassumption|]; etrans; [eassumption|]; apply add_base).
Qed.

Lemma populate_fold_cards cs s :
  cards (foldl (λ s card,
           set_ranks (setdefault_append (rank card) card (ranks s))
             (set_suits (setdefault_append (suit card) card (suits s)) s))
         s cs) = cards s.
Proof. revert s. induction cs as [|c cs IH]; intros s; simpl; [done|]. by rewrite IH. Qed.

Lemma populate_cards s : cards (populate s) = cards s.
Proof. apply populate_fold_cards. Qed.

Lemma rest_cards s s' : __rest s = Some s' → cards s' = cards s.
Proof.
  unfold __rest. intros H.
  repeat (case_match; simplify_option_eq); done.
Qed.

Lemma update_cards pe s : cards (__update pe s).2 = cards s.
Proof. unfold __update. by repeat case_match. Qed.

(** C10: [classify] leaves the card list of the hand as it is, the same
    cards in the same order, in normal flow and with the performance
    optimizations alike: the sorting and the removals of the classifier
    work on the lists of [self.__suits] and [self.__ranks] and on the deep
    copy. *)
Theorem classify_keeps_cards nf pe s s' :
  classify nf pe s = Some s' → cards s' = cards s.
Proof.
  unfold classify. intros H.
  pose proof (update_cards pe s) as Hu.
  destruct nf; simpl in H.
  - destruct (__update pe s) as [go s0]; simpl in Hu. destruct go; [|congruence].
    destruct (__suit _) as [s1|] eqn:H1; simplify_eq/=.
    destruct (__rank _) as [s2|] eqn:H2; simplify_eq/=.
    apply suit_base in H1 as (H1&_). apply rank_base in H2 as (H2&_).
    rewrite populate_cards in H1. simpl in H1.
    assert (cards s' = cards s2) as ->; [|congruence].
    destruct (hand s2); repeat case_match; simplify_eq; try done;
      try (apply rest_cards in H as ->; try done; apply add_base).
    apply add_base.
  - destruct (__suit _) as [s1|] eqn:H1; simplify_eq/=.
    destruct (__rank _) as [s2|] eqn:H2; simplify_eq/=.
    apply suit_base in H1 as (H1&_). apply rank_base in H2 as (H2&_).
    rewrite populate_cards in H1. simpl in H1.
    assert (cards s' = cards s2) as ->; [|congruence].
    destruct (hand s2); repeat case_match; simplify_eq; try done;
      try (apply rest_cards in H as ->; try done; apply add_base).
    apply add_base.
Qed.
(** ** Fixtures *)

(** C3, as the code has it: the full house of three 2s and two 5s is
    classified with all five cards, the three 2s first, as the hand, and
    there is no rest of the hand. *)
Theorem full_house_fixture :
  hand <$> __init__ [mkCard Spades 2; mkCard Hearts 2; mkCard Diamonds 2;
                     mkCard Clubs 5; mkCard Spades 5]
  = Some [HType FULL_HOUSE;
          HCards [mkCard Spades 2; mkCard Hearts 2; mkCard Diamonds 2;
                  mkCard Clubs 5; mkCard Spades 5]].
Proof. reflexivity. Qed.

(** C3 as stated fails: the cards of the hand are not the three 2s alone,
    and the pair of 5s is not a rest of the hand. *)
Lemma full_house_fixture_not_split :
  ¬ ∃ s primary kicker,
      __init__ [mkCard Spades 2; mkCard Hearts 2; mkCard Diamonds 2;
                mkCard Clubs 5; mkCard Spades 5] = Some s
      ∧ hand s = [HType FULL_HOUSE; HCards primary; HCards kicker]
      ∧ rank <$> primary = [2; 2; 2] ∧ rank <$> kicker = [5; 5].
Proof.
  intros (s & primary & kicker & Hs & Hh & _).
  vm_compute in Hs. injection Hs as <-. discriminate Hh.
Qed.

(** C6: of the three pairs of aces, kings and queens, the two highest make
    the two pair, and the rest of the hand is the first queen. *)
Theorem two_pair_fixture :
  hand <$> __init__ [mkCard Spades 1; mkCard Hearts 1; mkCard Diamonds 13;
                     mkCard Clubs 13; mkCard Spades 12; mkCard Hearts 12;
                     mkCard Diamonds 11]
  = Some [HType TWO_PAIR;
          HCards [mkCard Spades 1; mkCard Hearts 1; mkCard Diamonds 13;
                  mkCard Clubs 13];
          HCards [mkCard Spades 12]].
Proof. reflexivity. Qed.

(** ** Hands that are too small *)

(** C9 as stated fails with the performance optimizations on: the size
    check of [__update] is skipped, and a hand of four cards that holds a
    pair is classified as a pair. *)
Lemma classify_fast_four_cards :
  hand <$> classify false true
    (mk [mkCard Spades 2; mkCard Hearts 2; mkCard Diamonds 7; mkCard Clubs 9]
        EmptyString false [] [] [] [])
  = Some [HType PAIR; HCards [mkCard Spades 2; mkCard Hearts 2]].
Proof. reflexivity. Qed.

(** C9, in normal flow: a hand of fewer than five cards gets the empty
    classification, whatever the state of the object was, and so does a
    hand built from fewer than five cards. *)
Theorem classify_too_few_cards :
  (∀ pe s, len (cards s) < MIN_NUM_CARDS →
     ∃ s', classify true pe s = Some s' ∧ hand s' = [] ∧ cards s' = cards s)
  ∧ (∀ cs, len cs < MIN_NUM_CARDS →
       ∃ s', __init__ cs = Some s' ∧ hand s' = [] ∧ cards s' = cs).
Proof.
  assert (∀ pe s, len (cards s) < MIN_NUM_CARDS →
     ∃ s', classify true pe s = Some s' ∧ hand s' = [] ∧ cards s' = cards s)
    as Hc.
  { intros pe s Hlen. unfold classify, __update. simpl.
    rewrite bool_decide_eq_true_2 by done. eauto. }
  split; [done|]. intros cs Hlen. unfold __init__.
  assert (slice_to MAX_NUM_CARDS cs = cs) as ->.
  { unfold slice_to, MAX_NUM_CARDS, MIN_NUM_CARDS, len in *. simpl.
    apply take_ge. lia. }
  destruct cs as [|c cs]; [by eexists|].
  destruct (Hc true (__reset false (mk (c :: cs) EmptyString false [] [] [] [])))
    as (s' & ? & ? & ?); [done|]. eauto.
Qed.

(** ** Appending to statistics of another hand size *)

(** C8: [append] with a number of cards per hand that differs from the one
    of the object, whose histogram is not empty, returns [False] and
    leaves every attribute, the histogram and the number of samples among
    them, as it was; no hand is generated. *)
Theorem append_mismatch_rejected shuffle its cph (s : PokerStats.t) :
  PokerStats.histogram s ≠ ∅ →
  cph ≠ PokerStats.cards_per_hand s →
  PokerStats.append shuffle its cph s = Some (false, s).
Proof.
  intros Hh Hc. unfold PokerStats.append, PokerStats.__generate. simpl.
  unfold PokerStats.__set.
  rewrite (bool_decide_eq_true_2 (PokerStats.cards_per_hand s ≠ cph)) by done.
  rewrite orb_true_r. simpl.
  destruct (PokerStats._param_error _ _ _); [done|].
  by rewrite (bool_decide_eq_true_2 (PokerStats.histogram s ≠ ∅)).
Qed.

Lemma append_mismatch_rejected_witness :
  PokerStats.append (λ _ deck, deck) 1000 5
    (PokerStats.mk 1000 7 PokerStats.UPDATE 7 {[PokerHand.PAIR := 3]} 3)
  = Some (false,
          PokerStats.mk 1000 7 PokerStats.UPDATE 7 {[PokerHand.PAIR := 3]} 3).
Proof.
  apply append_mismatch_rejected; simpl.
  - apply map_non_empty_singleton.
  - lia.
Defined.

Lemma classify_keeps_cards_witness :
  ∃ s', classify true true
          (mk [mkCard Spades 7; mkCard Hearts 5; mkCard Diamonds 9;
               mkCard Clubs 2; mkCard Spades 11] EmptyString false [] [] [] [])
        = Some s'
        ∧ cards s' = [mkCard Spades 7; mkCard Hearts 5; mkCard Diamonds 9;
                      mkCard Clubs 2; mkCard Spades 11].
Proof.
  eexists. split; [reflexivity|].
  by apply (classify_keeps_cards true true
              (mk [mkCard Spades 7; mkCard Hearts 5; mkCard Diamonds 9;
                   mkCard Clubs 2; mkCard Spades 11]
                  EmptyString false [] [] [] [])).
Defined.
(** ** Sorting and the other list operations *)

Section sorting.
Context {A : Type} (key : A → Z).
Implicit Types (x : A) (l : list A).

Lemma insert_desc_perm x l : insert_desc key x l ≡ₚ x :: l.
Proof.
  induction l as [|y l IH]; simpl; [done|].
  case_match; [|done]. by rewrite IH, Permutation_swap.
Qed.

Lemma sort_desc_perm l : sort_desc key l ≡ₚ l.
Proof.
  induction l as [|x l IH]; simpl; [done|].
  by rewrite insert_desc_perm, IH.
Qed.

Lemma insert_asc_perm x l : insert_asc key x l ≡ₚ x :: l.
Proof.
  induction l as [|y l IH]; simpl; [done|].
  case_match; [|done]. by rewrite IH, Permutation_swap.
Qed.

Lemma sorted_perm l : sorted key l ≡ₚ l.
Proof.
  induction l as [|x l IH]; simpl; [done|].
  by rewrite insert_asc_perm, IH.
Qed.

Lemma length_sort_desc l : length (sort_desc key l) = length l.
Proof. by rewrite sort_desc_perm. Qed.

Lemma insert_asc_sorted x l :
  Sorted Z.le (key <$> l) → Sorted Z.le (key <$> insert_asc key x l).
Proof.
  induction l as [|y l IH]; simpl; intros Hs.
  - by repeat constructor.
  - apply Sorted_inv in Hs as [Hs Hhd].
    destruct (key y <? key x) eqn:E; simpl.
    + constructor; [by apply IH|].
      destruct l as [|z l]; simpl in *.
      * constructor. lia.
      * case_match; simpl; constructor; [|lia].
        by apply HdRel_inv in Hhd.
    + constructor; [by constructor|]. constructor. lia.
Qed.

Lemma sorted_sorted l : Sorted Z.le (key <$> sorted key l).
Proof.
  induction l as [|x l IH]; simpl; [constructor|].
  by apply insert_asc_sorted.
Qed.

(** The keys of [sorted(l)] depend on the keys of [l] only, not on
    their order. *)
Lemma sorted_keys_perm l1 l2 :
  key <$> l1 ≡ₚ key <$> l2 → key <$> sorted key l1 = key <$> sorted key l2.
Proof.
  intros Hp. apply (Sorted_unique Z.le); [apply sorted_sorted..|].
  by rewrite !sorted_perm.
Qed.

Lemma insert_desc_sorted x l :
  Sorted Z.ge (key <$> l) → Sorted Z.ge (key <$> insert_desc key x l).
Proof.
  induction l as [|y l IH]; simpl; intros Hs.
  - by repeat constructor.
  - apply Sorted_inv in Hs as [Hs Hhd].
    destruct (key x <? key y) eqn:E; simpl.
    + constructor; [by apply IH|].
      destruct l as [|z l]; simpl in *.
      * constructor. lia.
      * case_match; simpl; constructor; [|lia].
        by apply HdRel_inv in Hhd.
    + constructor; [by constructor|]. constructor. lia.
Qed.

Lemma sort_desc_sorted l : Sorted Z.ge (key <$> sort_desc key l).
Proof.
  induction l as [|x l IH]; simpl; [constructor|].
  by apply insert_desc_sorted.
Qed.
End sorting.

Lemma pop_to_front_perm {A} (l : list A) :
  l ≠ [] → ∃ l', pop_to_front l = Some l' ∧ l' ≡ₚ l.
Proof.
  intros Hl. destruct (exists_last Hl) as (l0 & x & ->).
  unfold pop_to_front. rewrite last_snoc. simpl. eexists; split; [done|].
  rewrite removelast_last. by rewrite Permutation_cons_append.
Qed.

Lemma pop_to_front_inv {A} (l l' : list A) :
  pop_to_front l = Some l' → l' ≡ₚ l.
Proof.
  intros H. destruct (decide (l = [])) as [->|Hl]; [done|].
  destruct (pop_to_front_perm l Hl) as (? & ? & ?). congruence.
Qed.

Lemma len_nonneg {A} (l : list A) : 0 ≤ len l.
Proof. unfold len. lia. Qed.

Lemma cards_eqb_ranks l m : cards_eqb l m = true ↔ rank <$> l = rank <$> m.
Proof.
  revert m. induction l as [|c l IH]; intros [|d m]; csimpl; try done.
  unfold Card_eqb. rewrite andb_true_iff, IH, Z.eqb_eq.
  split; [by intros [-> ->]|]. by intros [= ? ?].
Qed.
(** ** Grouping the cards by suit and by rank *)

Section grouping.
Context {K A : Type} `{EqDecision K} (key : A → K).
Implicit Types (d : list (K * list A)) (l : list A).

(** [d] groups the elements of [l] by their key: the keys are distinct,
    no group is empty, a group holds elements of its key only, and the
    groups together are the elements of [l]. *)
Definition grouped d l : Prop :=
  NoDup d.*1
  ∧ Forall (λ g, g.2 ≠ [] ∧ Forall (λ x, key x = g.1) g.2) d
  ∧ concat d.*2 ≡ₚ l.

Lemma setdefault_append_keys k x d :
  (setdefault_append k x d).*1 = if decide (k ∈ d.*1) then d.*1 else d.*1 ++ [k].
Proof.
  induction d as [|[k' g] d IH]; csimpl; [done|].
  destruct (decide (k' = k)) as [->|Hne]; csimpl.
  - by rewrite decide_True by apply list_elem_of_here.
  - rewrite IH. destruct (decide (k ∈ d.*1)) as [Hin|Hin].
    + by rewrite decide_True by by apply list_elem_of_further.
    + rewrite decide_False; [done|].
      intros [?|?]%elem_of_cons; done.
Qed.

Lemma setdefault_append_concat k x d :
  concat (setdefault_append k x d).*2 ≡ₚ x :: concat d.*2.
Proof.
  induction d as [|[k' g] d IH]; csimpl; [done|].
  destruct (decide (k' = k)) as [->|Hne]; csimpl.
  - rewrite <-app_assoc. simpl. by rewrite <-Permutation_middle.
  - rewrite IH. by rewrite <-Permutation_middle.
Qed.

Lemma setdefault_append_grouped x d l :
  grouped d l → grouped (setdefault_append (key x) x d) (x :: l).
Proof.
  intros (Hnd & Hall & Hperm). split_and!.
  - rewrite setdefault_append_keys. case_decide; [done|].
    rewrite Permutation_app_comm. by constructor.
  - clear Hnd Hperm. induction Hall as [|[k' g] d [Hg Hk] Hall IH]; simpl.
    + repeat constructor; done.
    + destruct (decide (k' = key x)) as [->|Hne].
      * constructor; [|done]. simpl in *. split.
        -- by destruct g.
        -- apply Forall_app. split; [done|]. by constructor.
      * constructor; done.
  - by rewrite setdefault_append_concat, Hperm.
Qed.

Lemma group_fold_grouped l d l0 :
  grouped d l0 →
  grouped (foldl (λ d x, setdefault_append (key x) x d) d l) (l0 ++ l).
Proof.
  revert d l0. induction l as [|x l IH]; intros d l0 Hg; simpl.
  - by rewrite app_nil_r.
  - apply (setdefault_append_grouped x) in Hg. apply IH in Hg.
    destruct Hg as (?&?&Hp). split_and!; [done..|].
    by rewrite Hp, <-Permutation_middle.
Qed.

Lemma grouped_nil : grouped [] [].
Proof. split_and!; [constructor|constructor|done]. Qed.

Lemma grouped_perm d l l' : l ≡ₚ l' → grouped d l → grouped d l'.
Proof. intros Hp (?&?&?). split_and!; [done..|]. by etrans. Qed.

Lemma grouped_nonempty d l : grouped d l → l ≠ [] → d ≠ [].
Proof.
  intros (_&_&Hp) Hl ->. simpl in Hp. apply Hl.
  by apply Permutation_nil in Hp.
Qed.

Lemma grouped_group_nonempty d l g : grouped d l → g ∈ d → g.2 ≠ [].
Proof.
  intros (_&Hall&_) Hg. rewrite Forall_forall in Hall.
  by destruct (Hall g Hg).
Qed.

Lemma grouped_group_sub d l g : grouped d l → g ∈ d → g.2 ⊆+ l.
Proof.
  intros (_&_&Hp) Hg. rewrite <-Hp.
  apply list_elem_of_split in Hg as (d1 & d2 & ->).
  rewrite fmap_app, concat_app. csimpl.
  apply submseteq_inserts_l, submseteq_inserts_r. done.
Qed.
End grouping.

Lemma populate_fold cs s :
  let s' := foldl (λ s card,
              set_ranks (setdefault_append (rank card) card (ranks s))
                (set_suits (setdefault_append (suit card) card (suits s)) s))
            s cs in
  suits s' = foldl (λ d c, setdefault_append (suit c) c d) (suits s) cs
  ∧ ranks s' = foldl (λ d c, setdefault_append (rank c) c d) (ranks s) cs
  ∧ same_base s s' ∧ hand s' = hand s ∧ label s' = label s.
Proof.
  revert s. induction cs as [|c cs IH]; intros s; simpl; [done|].
  destruct (IH (set_ranks (setdefault_append (rank c) c (ranks s))
                  (set_suits (setdefault_append (suit c) c (suits s)) s)))
    as (-> & -> & Hb & -> & ->).
  split_and!; done.
Qed.

(** The state from which the classification starts: the cards grouped by
    suit and by rank, and no hand yet. *)
Lemma populate_reset nf s :
  let s' := populate (__reset nf s) in
  grouped suit (suits s') (cards s) ∧ grouped rank (ranks s') (cards s)
  ∧ cards s' = cards s ∧ normal_flow s' = nf
  ∧ cards_copy s' = (if nf then cards s else []) ∧ hand s' = [].
Proof.
  unfold populate.
  destruct (populate_fold (cards (__reset nf s)) (__reset nf s))
    as (Hs & Hr & (Hc & Hn & Hcc) & Hh & _).
  simpl in *. rewrite Hs, Hr. split_and!; try done.
  - apply (group_fold_grouped suit (cards s) [] []), grouped_nil.
  - apply (group_fold_grouped rank (cards s) [] []), grouped_nil.
Qed.
(** ** The suit hands *)

Lemma slice_to_length {A} (n : nat) (l : list A) :
  (n ≤ length l)%nat → length (slice_to (Z.of_nat n) l) = n.
Proof.
  intros Hn. unfold slice_to.
  rewrite (proj2 (Z.leb_le _ _)) by lia.
  rewrite length_take, Nat2Z.id. lia.
Qed.

Lemma slice_length {A} (i n : nat) (l : list A) :
  (i + n ≤ length l)%nat → length (slice i (i + n) l) = n.
Proof.
  intros Hn. unfold slice. rewrite length_take, length_drop. lia.
Qed.

Lemma suit_scan_some h idxs :
  Forall (λ i, (i + 5 ≤ length h)%nat) idxs →
  ∃ r, suit_scan h idxs = Some r ∧ (∀ sf, r = Some sf → length sf = 5%nat).
Proof.
  induction 1 as [|i idxs Hi _ IH]; simpl.
  - by eexists.
  - destruct (lookup_lt_is_Some_2 h (i + Z.to_nat __SEQUENCE - 1)) as [c1 ->];
      [unfold __SEQUENCE; lia|].
    destruct (lookup_lt_is_Some_2 h i) as [c2 ->]; [lia|]. simpl.
    case_bool_decide; [|done].
    eexists; split; [done|]. intros sf [= <-].
    by apply (slice_length i 5).
Qed.

Lemma range_bound n : Forall (λ i, (Z.of_nat i < n)) (range n).
Proof.
  unfold range. apply Forall_forall. intros i Hi.
  apply elem_of_seq in Hi. lia.
Qed.

(** A suit of five cards or more always gives a hand of five cards, a
    straight flush or a flush, and the suit keeps its cards. *)
Lemma suit_hand_some h :
  MIN_NUM_CARDS ≤ len h →
  ∃ h' htype p, suit_hand h = Some (h', (htype, p))
    ∧ h' ≡ₚ h ∧ length p = 5%nat
    ∧ (htype = STRAIGHT_FLUSH ∨ htype = FLUSH).
Proof.
  intros Hlen. unfold suit_hand.
  pose proof (sort_desc_perm rank h) as Hperm.
  pose proof (length_sort_desc rank h) as Hl.
  set (hs := sort_desc rank h) in *.
  unfold MIN_NUM_CARDS, len in Hlen.
  assert (hs ≠ []) as Hne by (intros E; rewrite E in Hl; simpl in Hl; lia).
  destruct (pop_to_front_perm hs Hne) as (hp & Hpop & Hpp).
  assert (length hp = length h) as Hlp by (by rewrite Hpp).
  destruct (last hs) as [c_last|] eqn:Hlast;
    [|by apply last_None in Hlast]. simpl.
  destruct (lookup_lt_is_Some_2 hs (Z.to_nat (__SEQUENCE - 2))) as [c3 Hc3];
    [unfold __SEQUENCE; lia|].
  assert (∃ top : bool,
    (if bool_decide (rank c_last = 1)
     then c ← hs !! Z.to_nat (__SEQUENCE - 2); Some (bool_decide (rank c = 10))
     else Some false) = Some top) as [top ->].
  { case_bool_decide; [|by eexists]. rewrite Hc3. by eexists. }
  simpl. destruct top.
  - rewrite Hpop. simpl. eexists _, _, _. split; [done|].
    split_and!; [by etrans| |by left].
    apply (slice_to_length 5). lia.
  - destruct (suit_scan_some hs (range (len hs - __SEQUENCE + 1)))
      as (r & -> & Hr).
    { eapply Forall_impl; [apply range_bound|]. simpl.
      unfold len, __SEQUENCE. intros i Hi. lia. }
    simpl. destruct r as [sf|].
    + eexists _, _, _. split; [done|]. split_and!; [done|by apply Hr|by left].
    + case_bool_decide.
      * rewrite Hpop. simpl. eexists _, _, _. split; [done|].
        split_and!; [by etrans| |by right].
        apply (slice_to_length 5). lia.
      * simpl. eexists _, _, _. split; [done|].
        split_and!; [done| |by right].
        apply (slice_to_length 5). lia.
Qed.

Lemma suit_values_some d :
  ∃ d' r, suit_values d = Some (d', r)
    ∧ (∀ htype p, r = Some (htype, p) →
         length p = 5%nat ∧ (htype = STRAIGHT_FLUSH ∨ htype = FLUSH)).
Proof.
  induction d as [|[k h] d IH]; simpl.
  - by eexists _, _.
  - destruct (Z.leb_spec MIN_NUM_CARDS (len h)) as [Hlen|Hlen].
    + destruct (suit_hand_some h Hlen) as (h' & htype & p & -> & _ & ? & ?).
      simpl. eexists _, _. split; [done|]. by intros ?? [= <- <-].
    + destruct IH as (d' & r & -> & Hr). simpl. by eexists _, _.
Qed.

(** [__suit] never fails. It leaves the ranks alone, and a hand it adds
    has five cards. *)
Lemma suit_some s :
  hand s = [] →
  ∃ s', __suit s = Some s' ∧ ranks s' = ranks s
    ∧ (hand s' = []
       ∨ ∃ htype p, hand s' = [HType htype; HCards p] ∧ length p = 5%nat
           ∧ (htype = STRAIGHT_FLUSH ∨ htype = FLUSH)).
Proof.
  intros Hh. unfold __suit. case_match; [|by eauto].
  destruct (suit_values_some (suits s)) as (d & r & -> & Hr). simpl.
  destruct r as [[htype p]|].
  - destruct (Hr htype p eq_refl) as [? ?].
    eexists. split; [done|]. split.
    + unfold __add. simpl. by destruct (normal_flow s).
    + right. rewrite add_hand. simpl. rewrite Hh. by eexists _, _.
  - eexists. split; [done|]. by split; [|left].
Qed.
(** ** The rank hands *)

(** The number of cards of the hand of each type. *)
Definition plen (htype : Z) : nat :=
  if bool_decide (htype = HIGH_CARD) then 1
  else if bool_decide (htype = PAIR) then 2
  else if bool_decide (htype = THREE_OF_A_KIND) then 3
  else if bool_decide (htype = TWO_PAIR ∨ htype = FOUR_OF_A_KIND) then 4
  else 5.

Definition nonempty_groups (rs : list (Z * list Card)) : Prop :=
  Forall (λ g, g.2 ≠ []) rs.

#[local] Arguments mapM : simpl never.

Lemma first_cards_some rs idxs :
  nonempty_groups rs → Forall (λ i, (i < length rs)%nat) idxs →
  ∃ cs, mapM (first_card rs) idxs = Some cs ∧ length cs = length idxs.
Proof.
  intros Hne Hidx.
  destruct (mapM_is_Some_2 (first_card rs) idxs) as [cs Hcs].
  - eapply Forall_impl; [exact Hidx|]. simpl. intros i Hi.
    unfold first_card.
    destruct (lookup_lt_is_Some_2 rs i Hi) as [g Hg]. rewrite Hg. simpl.
    unfold nonempty_groups in Hne. rewrite Forall_forall in Hne.
    specialize (Hne g (list_elem_of_lookup_2 _ _ _ Hg)).
    destruct g.2; [done|]. by eexists.
  - exists cs. split; [done|]. symmetry. by eapply length_mapM.
Qed.

Lemma straight_scan_some rs s idxs :
  nonempty_groups rs → Forall (λ i, (i + 5 ≤ length rs)%nat) idxs →
  ∃ b s', straight_scan rs s idxs = Some (b, s')
    ∧ if b then ∃ p, s' = __add STRAIGHT p s ∧ length p = 5%nat else s' = s.
Proof.
  intros Hne. induction 1 as [|i idxs Hi _ IH]; simpl.
  - by exists false, s.
  - destruct (lookup_lt_is_Some_2 rs (i + Z.to_nat __SEQUENCE - 1)) as [g1 ->];
      [unfold __SEQUENCE; lia|].
    destruct (lookup_lt_is_Some_2 rs i) as [g2 ->]; [lia|]. simpl.
    case_bool_decide; [|done].
    destruct (first_cards_some rs (seq i 5) Hne) as (cs & Hcs & Hl).
    { apply Forall_forall. intros j Hj%elem_of_seq. lia. }
    simpl in Hcs. rewrite Hcs.
    simpl. exists true. eexists. split; [done|]. exists cs. split; [done|].
    by rewrite Hl.
Qed.

Lemma straight_some rs ace s :
  nonempty_groups rs →
  ∃ b s', __straight rs ace s = Some (b, s')
    ∧ if b then ∃ p, s' = __add STRAIGHT p s ∧ length p = 5%nat else s' = s.
Proof.
  intros Hne. unfold __straight.
  destruct (Z.leb_spec __SEQUENCE (len rs)) as [Hlen|Hlen];
    [|by exists false, s].
  unfold __SEQUENCE, len in Hlen.
  destruct (lookup_lt_is_Some_2 rs (Z.to_nat (__SEQUENCE - 2))) as [g3 Hg3];
    [unfold __SEQUENCE; lia|].
  assert (∃ top,
    match ace with
    | Some a =>
        g ← rs !! Z.to_nat (__SEQUENCE - 2);
        Some (if bool_decide (g.1 = 10) then Some a else None)
    | None => Some None
    end = Some top) as [top ->].
  { destruct ace; [|by eexists]. rewrite Hg3. by eexists. }
  simpl. destruct top as [a|].
  - destruct (first_cards_some rs (range (__SEQUENCE - 1)) Hne)
      as (cs & Hcs & Hl).
    { eapply Forall_impl; [apply range_bound|]. simpl.
      unfold __SEQUENCE. intros i Hi. lia. }
    simpl in Hcs. rewrite Hcs.
    simpl. exists true. eexists. split; [done|]. eexists. split; [done|].
    simpl. by rewrite Hl.
  - apply straight_scan_some; [done|].
    eapply Forall_impl; [apply range_bound|]. simpl.
    unfold len, __SEQUENCE. intros i Hi. lia.
Qed.

(** What holds of [three] and [pairs] during the loop of [__rank]. *)
Definition loop_inv (three pairs : list Card) : Prop :=
  (three = [] ∨ length three = 3%nat) ∧ Nat.Even (length pairs).

Lemma submseteq_inserts_mid {A} (a b g x l : list A) :
  l ⊆+ a ++ b ++ x → l ⊆+ a ++ b ++ g ++ x.
Proof.
  intros H. apply (submseteq_inserts_l g) in H.
  etrans; [exact H|]. apply Permutation_submseteq.
  assert (a ++ b ++ g ++ x = (a ++ b) ++ g ++ x) as -> by by rewrite <-app_assoc.
  assert (g ++ a ++ b ++ x = g ++ (a ++ b) ++ x) as -> by by rewrite <-app_assoc.
  generalize (a ++ b). intros ab.
  rewrite !app_assoc. apply Permutation_app_tail, Permutation_app_comm.
Qed.

(** The loop of [__rank]: a return from inside is a full house of five
    cards or a four of a kind that is one of the ranks; at the end of the
    loop, [three] and [pairs] are made of cards of the ranks. *)
Lemma rank_loop_spec rs three pairs s :
  loop_inv three pairs →
  match rank_loop rs three pairs s with
  | inl s' =>
      ∃ htype p, s' = __add htype p s
        ∧ ((htype = FULL_HOUSE ∧ length p = 5%nat)
           ∨ (htype = FOUR_OF_A_KIND ∧ length p = 4%nat
              ∧ p ⊆+ concat rs.*2))
  | inr (three', pairs', s') =>
      s' = s ∧ loop_inv three' pairs'
      ∧ three' ++ pairs' ⊆+ three ++ pairs ++ concat rs.*2
  end.
Proof.
  revert three pairs. induction rs as [|g rs IH]; intros three pairs Hinv.
  { simpl. split_and!; [done..|]. by rewrite app_nil_r. }
  destruct Hinv as [Hthree Hpairs]. simpl. unfold len.
  case_bool_decide as H2; [|case_bool_decide as H3; [|case_bool_decide as H4]].
  - (* a pair *)
    assert (length g.2 = 2%nat) as Hg by lia.
    unfold __full_house. destruct three as [|c three].
    + case_bool_decide as Hp3.
      { destruct Hpairs as [k Hk]. unfold len in Hp3. lia. }
      assert (loop_inv [] (pairs ++ g.2)) as Hinv.
      { split; [by left|]. rewrite length_app, Hg.
        destruct Hpairs as [k Hk]. exists (S k). lia. }
      specialize (IH [] (pairs ++ g.2) Hinv).
      destruct (rank_loop rs [] (pairs ++ g.2) s) as [s'|[[three' pairs'] s']].
      * destruct IH as (htype & p & -> & [?|(?&?&?)]).
        { eexists _, _. split; [done|]. by left. }
        { eexists _, _. split; [done|]. right. split_and!; [done..|].
          csimpl. by apply submseteq_inserts_l. }
      * destruct IH as (-> & ? & Hsub).
        split_and!; [done..|]. csimpl. simpl in Hsub.
        by rewrite <-(assoc_L (++)) in Hsub.
    + rewrite bool_decide_eq_true_2 by (unfold len; lia).
      eexists _, _. split; [done|]. left. split; [done|].
      rewrite length_app. destruct Hthree as [?|Ht]; [done|]. rewrite Ht. lia.
  - (* three of a kind *)
    assert (length g.2 = 3%nat) as Hg by lia.
    unfold __full_house. destruct pairs as [|c pairs].
    + case_bool_decide as Ht3.
      * eexists _, _. split; [done|]. left. split; [done|].
        unfold slice_to. simpl. rewrite length_app, length_take.
        unfold len in Ht3. lia.
      * destruct Hthree as [Ht|Ht]; [|unfold len in Ht3; lia]. subst three.
        assert (loop_inv g.2 []) as Hinv.
        { split; [by right|]. by apply (ex_intro _ 0%nat). }
        specialize (IH g.2 [] Hinv). simpl.
        destruct (rank_loop rs g.2 [] s) as [s'|[[three' pairs'] s']].
        -- destruct IH as (htype & p & -> & [?|(?&?&?)]).
           { eexists _, _. split; [done|]. by left. }
           { eexists _, _. split; [done|]. right. split_and!; [done..|].
             csimpl. by apply submseteq_inserts_l. }
        -- destruct IH as (-> & ? & Hsub).
           split_and!; [done..|]. csimpl. by simpl in Hsub.
    + rewrite bool_decide_eq_false_2 by (unfold len; lia).
      eexists _, _. split; [done|]. left. split; [done|].
      rewrite length_app. unfold slice_to. simpl.
      destruct Hpairs as [k Hk]. simpl in Hk.
      destruct pairs; simpl in *; lia.
  - (* four of a kind *)
    eexists _, _. split; [done|]. right. split_and!; [done|lia|].
    csimpl. by apply submseteq_inserts_r.
  - specialize (IH three pairs (conj Hthree Hpairs)).
    destruct (rank_loop rs three pairs s) as [s'|[[three' pairs'] s']].
    + destruct IH as (htype & p & -> & [?|(?&?&?)]).
      * eexists _, _. split; [done|]. by left.
      * eexists _, _. split; [done|]. right. split_and!; [done..|].
        csimpl. by apply submseteq_inserts_l.
    + destruct IH as (-> & ? & Hsub). split_and!; [done..|]. csimpl.
      by apply submseteq_inserts_mid.
Qed.
Lemma nonempty_groups_perm rs rs' :
  rs ≡ₚ rs' → nonempty_groups rs → nonempty_groups rs'.
Proof. unfold nonempty_groups. by intros ->. Qed.

Lemma grouped_nonempty_groups d cs : grouped rank d cs → nonempty_groups d.
Proof.
  intros (_ & Hall & _). unfold nonempty_groups.
  eapply Forall_impl; [exact Hall|]. by intros g [? _].
Qed.

Lemma concat_groups_perm (rs rs' : list (Z * list Card)) :
  rs ≡ₚ rs' → concat rs.*2 ≡ₚ concat rs'.*2.
Proof. by intros ->. Qed.

(** [__rank] never fails on a hand that has cards. The hand it adds has
    the number of cards of its type, and when these are fewer than five
    they are cards of the hand. *)
Lemma rank_spec s cs :
  hand s = [] → grouped rank (ranks s) cs → cs ≠ [] →
  ∃ s', __rank s = Some s' ∧ same_base s s'
    ∧ (hand s' = []
       ∨ ∃ htype p, hand s' = [HType htype; HCards p]
           ∧ PAIR ≤ htype ≤ FOUR_OF_A_KIND
           ∧ length p = plen htype
           ∧ (plen htype < 5 → p ⊆+ cs)%nat).
Proof.
  intros Hh Hg Hcs. unfold __rank. rewrite Hh.
  pose proof (sort_desc_perm fst (ranks s)) as Hperm.
  set (rs := sort_desc fst (ranks s)) in *.
  assert (nonempty_groups rs) as Hne.
  { eapply nonempty_groups_perm; [symmetry; exact Hperm|].
    by eapply grouped_nonempty_groups. }
  assert (rs ≠ []) as Hrs.
  { intros E. rewrite E in Hperm. symmetry in Hperm.
    apply Permutation_nil_r in Hperm.
    by apply (grouped_nonempty rank _ _ Hg Hcs). }
  assert (concat rs.*2 ≡ₚ cs) as Hcat.
  { rewrite (concat_groups_perm _ _ Hperm). by destruct Hg as (_&_&?). }
  destruct (last rs) as [g_last|] eqn:Hlast; [|by apply last_None in Hlast].
  simpl.
  assert (∃ ace,
    (if bool_decide (g_last.1 = 1)
     then c ← head g_last.2; Some (Some c) else Some None) = Some ace)
    as [ace ->].
  { case_bool_decide; [|by eexists].
    assert (g_last ∈ rs) as Hin.
    { apply last_Some in Hlast as [l' ->]. set_solver. }
    unfold nonempty_groups in Hne. rewrite Forall_forall in Hne.
    specialize (Hne _ Hin). destruct g_last.2; [done|]. by eexists. }
  simpl.
  destruct (straight_some rs ace s Hne) as (b & s1 & -> & Hb). simpl.
  destruct b.
  { destruct Hb as (p & -> & Hp). eexists. split; [done|].
    split; [apply add_base|]. right. exists STRAIGHT, p.
    rewrite add_hand, Hh. split_and!; [done|done|done|by rewrite Hp|].
    intros Hlt. by vm_compute in Hlt; lia. }
  subst s1.
  assert (∃ rs', (if ace is Some _ then pop_to_front rs else Some rs)
                 = Some rs' ∧ rs' ≡ₚ rs) as (rs' & -> & Hperm').
  { destruct ace; [|by eexists]. by apply pop_to_front_perm. }
  simpl.
  assert (concat rs'.*2 ≡ₚ cs) as Hcat'.
  { by rewrite (concat_groups_perm _ _ Hperm'). }
  assert (loop_inv [] []) as Hinv.
  { split; [by left|]. by apply (ex_intro _ 0%nat). }
  pose proof (rank_loop_spec rs' [] [] s Hinv) as Hloop.
  destruct (rank_loop rs' [] [] s) as [s'|[[three pairs] s']].
  - destruct Hloop as (htype & p & -> & Hcase).
    eexists. split; [done|]. split; [apply add_base|]. right.
    exists htype, p. rewrite add_hand, Hh.
    destruct Hcase as [[-> Hp]|(-> & Hp & Hsub)].
    + split_and!; [done|done|done|by rewrite Hp|].
      intros Hlt. by vm_compute in Hlt; lia.
    + split_and!; [done|done|done|by rewrite Hp|].
      intros _. by rewrite <-Hcat'.
  - destruct Hloop as (-> & [Hthree Hpairs] & Hsub). simpl in Hsub.
    rewrite Hcat' in Hsub.
    case_bool_decide as Hp2.
    { eexists. split; [done|]. split; [apply add_base|]. right.
      exists PAIR, pairs. rewrite add_hand, Hh. unfold len in Hp2.
      split_and!; [done|done|done|change (plen PAIR) with 2%nat; lia|]. intros _.
      etrans; [|exact Hsub]. by apply submseteq_inserts_l. }
    destruct pairs as [|c pairs].
    + destruct three as [|c three].
      * eexists. split; [done|]. split; [done|]. by left.
      * eexists. split; [done|]. split; [apply add_base|]. right.
        exists THREE_OF_A_KIND, (c :: three). rewrite add_hand, Hh.
        destruct Hthree as [?|Hthree]; [done|].
        split_and!; [done|done|done|by rewrite Hthree|].
        intros _. by rewrite app_nil_r in Hsub.
    + eexists. split; [done|]. split; [apply add_base|]. right.
      exists TWO_PAIR, (slice_to 4 (c :: pairs)). rewrite add_hand, Hh.
      split_and!; [done|done|done| |].
      * apply (slice_to_length 4). destruct Hpairs as [k Hk].
        unfold len in Hp2. simpl in *. lia.
      * intros _. etrans; [|exact Hsub].
        etrans; [|by apply submseteq_inserts_l].
        apply sublist_submseteq, sublist_take.
Qed.
(** ** The classification before the rest of the hand *)

Lemma high_card_loop_cases cs d :
  high_card_loop cs d = d ∨ high_card_loop cs d ∈ cs.
Proof.
  revert d. induction cs as [|c cs IH]; intros d; simpl; [by left|].
  case_bool_decide; [right; apply list_elem_of_here|].
  case_bool_decide.
  - right. destruct (IH c) as [->|?];
      [apply list_elem_of_here|by apply list_elem_of_further].
  - destruct (IH d) as [->|?]; [by left|right; by apply list_elem_of_further].
Qed.

(** The high card is a card of the hand as soon as the hand holds an ace
    or a card above the initial one. *)
Lemma high_card_loop_elem cs d c :
  c ∈ cs → rank c = 1 ∨ rank c > rank d → high_card_loop cs d ∈ cs.
Proof.
  revert d. induction cs as [|x cs IH]; intros d Hc Hr; simpl.
  { by apply elem_of_nil in Hc. }
  case_bool_decide as H1; [apply list_elem_of_here|].
  case_bool_decide as H2.
  - destruct (high_card_loop_cases cs x) as [->|?];
      [apply list_elem_of_here|by apply list_elem_of_further].
  - apply list_elem_of_further. apply elem_of_cons in Hc as [->|Hc].
    + lia.
    + by apply IH.
Qed.

(** The state after [__suit], [__rank] and the high card of [classify],
    which are the whole classification with the performance optimizations
    on: these steps never fail on a hand that has cards, and leave one
    hand type with the number of cards of the type. Apart from the high
    card, the cards of a hand of fewer than five are cards of the hand. *)
Lemma classify_core nf s :
  cards s ≠ [] →
  ∃ s1 s2 htype p,
    __suit (populate (__reset nf s)) = Some s1 ∧ __rank s1 = Some s2
    ∧ let s3 := if hand s2 is [] then __add HIGH_CARD [__high_card s2] s2
                else s2 in
      cards s3 = cards s ∧ normal_flow s3 = nf
      ∧ cards_copy s3 = (if nf then cards s else [])
      ∧ hand s3 = [HType htype; HCards p]
      ∧ HIGH_CARD ≤ htype ≤ STRAIGHT_FLUSH
      ∧ length p = plen htype
      ∧ (htype = HIGH_CARD → p = [high_card_loop (cards s) Card_default])
      ∧ (htype ≠ HIGH_CARD → (plen htype < 5)%nat → p ⊆+ cards s).
Proof.
  intros Hcs.
  destruct (populate_reset nf s) as (_ & Hgr & Hc0 & Hn0 & Hcc0 & Hh0).
  set (s0 := populate (__reset nf s)) in *.
  destruct (suit_some s0 Hh0) as (s1 & Hsuit & Hr1 & Hh1).
  pose proof (suit_base _ _ Hsuit) as (Hc1 & Hn1 & Hcc1).
  exists s1.
  destruct Hh1 as [Hh1|(htype & p & Hh1 & Hp & Ht)].
  - rewrite <-Hr1 in Hgr.
    destruct (rank_spec s1 (cards s) Hh1 Hgr Hcs) as (s2 & Hrank & Hb2 & Hh2).
    destruct Hb2 as (Hc2 & Hn2 & Hcc2).
    destruct Hh2 as [Hh2|(htype & p & Hh2 & Ht & Hp & Hsub)].
    + exists s2, HIGH_CARD, [__high_card s2]. split_and!; [done..|].
      rewrite Hh2. pose proof (add_base HIGH_CARD [__high_card s2] s2)
        as (Hc3 & Hn3 & Hcc3).
      simpl. split_and!; try congruence; try done.
      * by rewrite add_hand, Hh2.
      * intros _. unfold __high_card. congruence.
    + exists s2, htype, p. split_and!; [done..|].
      rewrite Hh2. simpl.
      unfold HIGH_CARD, PAIR, STRAIGHT_FLUSH, FOUR_OF_A_KIND in *.
      split_and!; try congruence; try lia; by intros _.
  - exists s1, htype, p.
    assert (__rank s1 = Some s1) as Hrank.
    { unfold __rank. by rewrite Hh1. }
    split_and!; [done..|]. rewrite Hh1. simpl.
    destruct Ht as [-> | ->]; (split_and!; try congruence; try done;
      first [by rewrite Hp|intros _ Hlt; by vm_compute in Hlt; lia]).
Qed.

(** With the performance optimizations on, [classify] never fails on a
    hand that has cards, and it classifies it. *)
Lemma classify_fast_some pe s :
  cards s ≠ [] →
  ∃ s' htype p, classify false pe s = Some s'
    ∧ cards s' = cards s ∧ normal_flow s' = false
    ∧ hand s' = [HType htype; HCards p]
    ∧ HIGH_CARD ≤ htype ≤ STRAIGHT_FLUSH ∧ length p = plen htype.
Proof.
  intros Hcs. unfold classify. simpl.
  destruct (classify_core false s Hcs)
    as (s1 & s2 & htype & p & Hs1 & Hs2 & Hc & Hn & _ & Hh & Ht & Hp & _).
  rewrite Hs1. simpl. rewrite Hs2. simpl in *. rewrite Hn.
  eexists _, htype, p. split; [reflexivity|]. split_and!; try done; apply Ht.
Qed.
(** ** The statistics *)

Module StatsFacts.
Import PokerStats.

Lemma total_insert (d : gmap Z Z) k v :
  d !! k = None → total (<[k := v]> d) = v + total d.
Proof.
  intros Hk. unfold total. rewrite map_fold_insert_L; [done| |done].
  intros. lia.
Qed.

Lemma total_empty : total ∅ = 0.
Proof. apply map_fold_empty. Qed.

(** One more sample in a bucket is one more in the sum. *)
Lemma total_increment k (d : gmap Z Z) : total (increment k d) = total d + 1.
Proof.
  unfold increment. destruct (d !! k) as [v|] eqn:Hk.
  - rewrite Hk. simpl.
    rewrite <-(insert_delete_id d k v Hk) at 2.
    rewrite <-insert_delete_eq.
    rewrite !total_insert by apply lookup_delete_eq. lia.
  - rewrite lookup_insert_eq. simpl. rewrite insert_insert_eq.
    rewrite total_insert by done. lia.
Qed.

(** Dealing to a hand that is in the performance flow: the cards leave
    the deck and are added to the hand. *)
Lemma move_cards_some num deck h :
  (num ≤ length deck)%nat → normal_flow h = false →
  ∃ deck' h', move_cards num deck h = Some (deck', h')
    ∧ length deck' = (length deck - num)%nat
    ∧ length (cards h') = (length (cards h) + num)%nat
    ∧ normal_flow h' = false.
Proof.
  revert deck h. induction num as [|num IH]; intros deck h Hlen Hnf; simpl.
  { eexists _, _. split; [done|]. split_and!; [lia|lia|done]. }
  destruct (last deck) as [card|] eqn:Hlast.
  2:{ apply last_None in Hlast. subst deck. simpl in Hlen. lia. }
  simpl. apply last_Some in Hlast as [deck0 ->].
  rewrite removelast_last. rewrite length_app in Hlen. simpl in Hlen.
  unfold add_card. rewrite Hnf. simpl.
  destruct (IH deck0 (set_cards (cards h ++ [card]) h)) as
    (deck' & h' & -> & Hd & Hc & Hn); [lia|done|].
  eexists _, _. split; [done|]. simpl in Hc.
  rewrite length_app in *. simpl in *. split_and!; [lia|lia|done].
Qed.

(** The inner loop classifies every hand it deals. *)
Lemma deal_loop_some n cph deck h hist :
  1 ≤ cph → (n * Z.to_nat cph ≤ length deck)%nat →
  normal_flow h = false → cards h = [] →
  ∃ deck' h' hist', deal_loop n cph deck h hist = Some (deck', h', hist')
    ∧ total hist' = total hist + Z.of_nat n
    ∧ normal_flow h' = false ∧ cards h' = [].
Proof.
  intros Hcph. revert deck h hist.
  induction n as [|n IH]; intros deck h hist Hlen Hnf Hc; simpl.
  { eexists _, _, _. split; [done|]. split_and!; [lia|done|done]. }
  destruct (move_cards_some (Z.to_nat cph) deck h) as
    (deck1 & h1 & -> & Hd1 & Hc1 & Hn1); [lia|done|].
  simpl.
  destruct (classify_fast_some true h1) as
    (h2 & htype & p & -> & Hc2 & Hn2 & Hh2 & _).
  { intros E. rewrite E, Hc in Hc1. simpl in Hc1. lia. }
  simpl. rewrite Hh2. simpl.
  destruct (IH deck1 (Hand_init h2) (increment htype hist)) as
    (deck' & h' & hist' & -> & Ht & Hn & Hc'); [lia|done|done|].
  eexists _, _, _. split; [done|]. rewrite Ht, total_increment.
  split_and!; [lia|done|done].
Qed.

(** The outer loop: every iteration deals from a full deck, reordered. *)
Lemma iter_loop_some shuffle idxs cph hpd deck h hist :
  (∀ i d, shuffle i d ≡ₚ d) →
  1 ≤ cph → 0 ≤ hpd → hpd * cph ≤ CARDS_PER_DECK →
  length deck = 52%nat → normal_flow h = false → cards h = [] →
  ∃ deck' h' hist',
    iter_loop shuffle idxs cph hpd deck h hist = Some (deck', h', hist')
    ∧ total hist' = total hist + Z.of_nat (length idxs) * hpd.
Proof.
  intros Hsh Hcph Hhpd Hprod. revert deck h hist.
  induction idxs as [|i idxs IH]; intros deck h hist Hdeck Hnf Hc; simpl.
  { eexists _, _, _. split; [done|]. lia. }
  destruct (deal_loop_some (Z.to_nat hpd) cph (shuffle i deck) h hist) as
    (deck1 & h1 & hist1 & -> & Ht1 & Hn1 & Hc1); [done| |done|done|].
  { rewrite Hsh, Hdeck. unfold CARDS_PER_DECK in Hprod. nia. }
  simpl.
  destruct (IH Deck_new h1 hist1) as (deck' & h' & hist' & -> & Ht);
    [done..|].
  eexists _, _, _. split; [done|]. rewrite Ht, Ht1. lia.
Qed.

(** The parameters of the object are valid, and the histogram sums to the
    number of samples. *)
Definition consistent (s : t) : Prop :=
  1 ≤ iterations s
  ∧ PokerHand.MIN_NUM_CARDS ≤ cards_per_hand s ≤ PokerHand.MAX_NUM_CARDS
  ∧ hands_per_deck s = CARDS_PER_DECK / cards_per_hand s
  ∧ total (histogram s) = samples s.

Lemma init_consistent : consistent __init__.
Proof.
  unfold consistent, __init__. simpl. rewrite total_empty.
  by vm_compute.
Qed.

Lemma param_error_false its cph op :
  _param_error its cph op = false →
  1 ≤ its ∧ PokerHand.MIN_NUM_CARDS ≤ cph ≤ PokerHand.MAX_NUM_CARDS.
Proof.
  unfold _param_error. repeat case_bool_decide; simpl; try done. lia.
Qed.

Lemma set_consistent its cph op s b s' :
  consistent s → __set its cph op s = (b, s') →
  consistent s'
  ∧ (b = true →
       iterations s' = its ∧ cards_per_hand s' = cph ∧ operation s' = op
       ∧ samples s' = (if bool_decide (op = UPDATE) then 0 else samples s)).
Proof.
  intros Hs Hset. pose proof Hs as (Hi & Hc & Hh & Ht).
  assert (∀ s0, consistent s0 →
            consistent (if bool_decide (samples s0 ≠ 0)
                           && bool_decide (operation s0 = UPDATE)
                        then __clear s0 else s0)) as Hclear.
  { intros s0 Hs0. destruct (_ && _); [|done]. destruct Hs0 as (?&?&?&?).
    unfold consistent, __clear. simpl. by rewrite total_empty. }
  assert (∀ s0, operation s0 = op →
            samples (if bool_decide (samples s0 ≠ 0)
                        && bool_decide (operation s0 = UPDATE)
                     then __clear s0 else s0)
            = if bool_decide (op = UPDATE) then 0 else samples s0) as Hsam.
  { intros s0 <-. repeat case_bool_decide; simpl; try done; lia. }
  unfold __set in Hset.
  destruct (bool_decide (iterations s ≠ its) || bool_decide (cards_per_hand s ≠ cph)
            || bool_decide (operation s ≠ op)) eqn:Hchg.
  - destruct (_param_error its cph op) eqn:Herr; [by simplify_eq|].
    apply param_error_false in Herr as [? ?].
    destruct (bool_decide (op = APPEND) && bool_decide (cards_per_hand s ≠ cph)
              && bool_decide (histogram s ≠ ∅)); simplify_eq; [by split|].
    split.
    + apply Hclear. unfold consistent. simpl. split_and!; try done; lia.
    + intros _. rewrite Hsam by done.
      repeat case_bool_decide; simpl; by split_and!.
  - simplify_eq. split; [by apply Hclear|]. intros _.
    rewrite !orb_false_iff in Hchg. destruct Hchg as [[H1 H2] H3].
    apply bool_decide_eq_false in H1, H2, H3.
    apply dec_stable in H1, H2, H3.
    rewrite Hsam by done.
    repeat case_bool_decide; simpl; by split_and!.
Qed.

(** A run of [__generate] that is accepted adds
    [iterations * hands_per_deck] samples, to the histogram as well. *)
Lemma generate_consistent shuffle its cph op s :
  (∀ i d, shuffle i d ≡ₚ d) → consistent s →
  ∃ b s', __generate shuffle its cph op s = Some (b, s')
    ∧ consistent s'
    ∧ (op ≠ NONE → b = (__set its cph op s).1)
    ∧ (b = true → op ≠ NONE →
         samples s' = (if bool_decide (op = UPDATE) then 0 else samples s)
                      + its * (CARDS_PER_DECK / cph)).
Proof.
  intros Hsh Hs. unfold __generate.
  case_bool_decide as Hop; [|by eexists _, _].
  destruct (__set its cph op s) as [ok s1] eqn:Hset.
  destruct (set_consistent _ _ _ _ _ _ Hs Hset) as [Hs1 Hok].
  destruct ok; [|by eexists _, _].
  destruct (Hok eq_refl) as (Hits & Hcph & Hopr & Hsam).
  destruct Hs1 as (Hi & Hc & Hh & Ht).
  unfold PokerHand.MIN_NUM_CARDS, PokerHand.MAX_NUM_CARDS in Hc.
  simpl.
  destruct (iter_loop_some shuffle (range (iterations s1)) (cards_per_hand s1)
              (hands_per_deck s1) Deck_new
              (__reset false (PokerHand.mk (slice_to MAX_NUM_CARDS [])
                                EmptyString false [] [] [] []))
              (histogram s1)) as (deck' & h' & hist' & -> & Htot);
    [done|lia| | |done|done|done|].
  { rewrite Hh. apply Z.div_pos; [done|lia]. }
  { rewrite Hh. rewrite Z.mul_comm. apply Z.mul_div_le. lia. }
  simpl. eexists _, _. split; [done|]. split; [|split; [done|]].
  - unfold consistent. simpl.
    split_and!; try done; try (unfold MIN_NUM_CARDS, MAX_NUM_CARDS; lia).
    rewrite Htot, Ht. unfold range. rewrite length_seq. lia.
  - intros _ _. simpl. rewrite Hsam, Hits, Hh, Hcph. done.
Qed.

End StatsFacts.

(** C7: whatever the shuffles are, a new [PokerStats] object updated with
    1000 iterations of hands of 5 cards holds 1000 * (52 // 5) = 10000
    samples; and after every run, accepted or rejected, started from an
    object whose histogram sums to its number of samples, the histogram
    sums to the number of samples again. *)
Theorem stats_total_samples shuffle :
  (∀ i deck, shuffle i deck ≡ₚ deck) →
  (∃ s, PokerStats.update shuffle 1000 5 PokerStats.__init__ = Some (true, s)
      ∧ PokerStats.samples s = 1000 * (52 / 5)
      ∧ PokerStats.samples s = 10000
      ∧ PokerStats.total (PokerStats.histogram s) = PokerStats.samples s)
  ∧ StatsFacts.consistent PokerStats.__init__
  ∧ (∀ its cph op s,
       StatsFacts.consistent s →
       ∃ b s', PokerStats.__generate shuffle its cph op s = Some (b, s')
         ∧ StatsFacts.consistent s'
         ∧ PokerStats.total (PokerStats.histogram s') = PokerStats.samples s').
Proof.
  intros Hsh. split_and!.
  - destruct (StatsFacts.generate_consistent shuffle 1000 5 PokerStats.UPDATE
                PokerStats.__init__ Hsh StatsFacts.init_consistent)
      as (b & s & Hgen & Hs & Hb & Hsam).
    assert (b = true) as -> by (by rewrite Hb).
    exists s. split; [done|].
    assert (PokerStats.samples s = 10000) as Hten.
    { rewrite Hsam by done. reflexivity. }
    destruct Hs as (_ & _ & _ & Htot).
    split_and!; [by rewrite Hten|done|done].
  - apply StatsFacts.init_consistent.
  - intros its cph op s Hs.
    destruct (StatsFacts.generate_consistent shuffle its cph op s Hsh Hs)
      as (b & s' & Hgen & Hs' & _ & _).
    exists b, s'. split_and!; [done..|]. apply Hs'.
Qed.

Lemma stats_total_samples_witness :
  ∃ s, PokerStats.update (λ _ deck, deck) 1000 5 PokerStats.__init__
       = Some (true, s)
     ∧ PokerStats.samples s = 10000
     ∧ PokerStats.total (PokerStats.histogram s) = PokerStats.samples s.
Proof.
  destruct (stats_total_samples (λ _ deck, deck)) as [(s & Hrun & _ & Hs & Ht) _].
  - intros _ deck. reflexivity.
  - exists s. exact (conj Hrun (conj Hs Ht)).
Defined.
(** ** The rest of the hand *)

(** A card of the deck: its rank is one of the thirteen. *)
Definition valid_card (c : Card) : Prop := 1 ≤ rank c ≤ 13.

(** A hand that can be classified: five to seven cards of the deck, no
    card twice. *)
Definition valid_hand (cs : list Card) : Prop :=
  NoDup cs ∧ Forall valid_card cs ∧ MIN_NUM_CARDS ≤ len cs ≤ MAX_NUM_CARDS.

Lemma plen_le htype : (plen htype ≤ 5)%nat.
Proof. unfold plen. repeat case_bool_decide; lia. Qed.

(** Five distinct cards of the deck are not all 2s: one of them is an ace
    or is above the card from which [__high_card] starts. *)
Lemma valid_has_high cs :
  NoDup cs → Forall valid_card cs → (5 ≤ length cs)%nat →
  ∃ c, c ∈ cs ∧ (rank c = 1 ∨ rank c > rank Card_default).
Proof.
  intros Hnd Hv Hlen.
  destruct (decide (Exists (λ c, rank c ≠ 2) cs)) as [Hex|Hall].
  - apply Exists_exists in Hex as (c & Hc & Hr). exists c. split; [done|].
    rewrite Forall_forall in Hv. specialize (Hv c Hc).
    unfold valid_card in Hv. simpl. lia.
  - exfalso. apply not_Exists_Forall in Hall; [|intros c; apply _].
    assert (cs ⊆+ [mkCard Clubs 2; mkCard Diamonds 2; mkCard Hearts 2;
                   mkCard Spades 2]) as Hsub.
    { apply NoDup_submseteq; [done|]. intros [su r] Hc.
      rewrite Forall_forall in Hall. specialize (Hall _ Hc). simpl in Hall.
      assert (r = 2) as -> by (destruct (decide (r = 2)); [done|by exfalso]).
      destruct su; set_solver. }
    apply submseteq_length in Hsub. simpl in Hsub. lia.
Qed.

Lemma remove_some c l :
  rank c ∈ rank <$> l →
  ∃ l', remove c l = Some l' ∧ rank <$> l ≡ₚ rank c :: (rank <$> l').
Proof.
  induction l as [|d l IH]; csimpl; intros Hin.
  { by apply elem_of_nil in Hin. }
  unfold Card_eqb. destruct (Z.eqb_spec (rank d) (rank c)) as [Heq|Hne].
  - exists l. by rewrite Heq.
  - apply elem_of_cons in Hin as [?|Hin]; [congruence|].
    destruct (IH Hin) as (l' & -> & Hp). csimpl. eexists. split; [done|].
    by rewrite Hp, Permutation_swap.
Qed.

(** The cards of the hand can be deleted from the copy when their ranks
    are ranks of the copy, as many times. *)
Lemma remove_all_some p l :
  rank <$> p ⊆+ rank <$> l →
  ∃ l', remove_all p l = Some l'
    ∧ rank <$> l ≡ₚ (rank <$> p) ++ (rank <$> l').
Proof.
  revert l. induction p as [|c p IH]; intros l Hsub; csimpl.
  { by exists l. }
  destruct (remove_some c l) as (l1 & -> & Hp1).
  { eapply elem_of_submseteq; [|exact Hsub]. apply list_elem_of_here. }
  csimpl. rewrite Hp1 in Hsub.
  apply (submseteq_app_inv_l _ _ [rank c]) in Hsub.
  destruct (IH l1 Hsub) as (l' & -> & Hp). exists l'. split; [done|].
  by rewrite Hp1, Hp.
Qed.

Lemma remove_all_length p l l' :
  remove_all p l = Some l' → length l = (length p + length l')%nat.
Proof.
  revert l. induction p as [|c p IH]; intros l; simpl.
  { by intros [= ->]. }
  destruct (remove c l) as [l1|] eqn:Hr; [|done]. simpl. intros Hall.
  apply IH in Hall. rewrite <-Hall. clear -Hr.
  revert l1 Hr. induction l as [|d l IHl]; intros l1; simpl; [done|].
  case_match; [by intros [= ->]|].
  destruct (remove c l) as [l2|]; [|done]. simpl. intros [= <-]. simpl.
  f_equal. by apply IHl.
Qed.

(** [__rest] on a classified hand of at least five cards: it does not
    fail when the ranks of the cards of the hand are ranks of the copy.
    A hand of five cards gets no rest; a shorter one gets the rest that
    makes five cards, taken from the other cards of the copy, and the
    copy holds its cards again. *)
Lemma rest_spec s htype p :
  hand s = [HType htype; HCards p] → length p = plen htype →
  ((plen htype < 5)%nat → rank <$> p ⊆+ rank <$> cards_copy s) →
  (5 ≤ length (cards_copy s))%nat →
  ∃ s', __rest s = Some s' ∧ cards s' = cards s
    ∧ normal_flow s' = normal_flow s
    ∧ rank <$> cards_copy s' ≡ₚ rank <$> cards_copy s
    ∧ ((plen htype = 5%nat ∧ hand s' = [HType htype; HCards p])
       ∨ ((plen htype < 5)%nat
          ∧ ∃ k, hand s' = [HType htype; HCards p; HCards k]
              ∧ (length p + length k = 5)%nat
              ∧ (rank <$> p) ++ (rank <$> k) ⊆+ rank <$> cards_copy s)).
Proof.
  intros Hh Hp Hsub Hlen. unfold __rest. rewrite Hh. simpl.
  unfold get_cards. simpl. unfold MIN_NUM_CARDS, len. rewrite Hp.
  pose proof (plen_le htype) as Hle.
  case_bool_decide as Hrest.
  2:{ exists s. split_and!; try done. left. split; [lia|done]. }
  assert (plen htype < 5)%nat as Hlt by lia.
  destruct (remove_all_some p (cards_copy s) (Hsub Hlt)) as (l1 & Hrm & Hperm).
  rewrite Hrm. simpl.
  pose proof (remove_all_length _ _ _ Hrm) as Hl1.
  pose proof (sort_desc_perm rank l1) as Hsort.
  set (l2 := sort_desc rank l1) in *.
  assert (length l2 = length l1) as Hl2 by (by rewrite Hsort).
  assert (l2 ≠ []) as Hne.
  { intros E. rewrite E in Hl2. simpl in Hl2. lia. }
  destruct (last l2) as [c_last|] eqn:Hlast; [|by apply last_None in Hlast].
  simpl.
  assert (∃ l3, (if bool_decide (rank c_last = 1) then pop_to_front l2
                 else Some l2) = Some l3 ∧ l3 ≡ₚ l2) as (l3 & -> & Hl3).
  { case_bool_decide; [by apply pop_to_front_perm|by eexists]. }
  simpl. eexists. split; [done|]. simpl.
  assert (rank <$> l3 ≡ₚ rank <$> l1) as Hr3 by (by rewrite Hl3, Hsort).
  split_and!; [done|done| |].
  - rewrite fmap_app, Hr3, Hperm. apply Permutation_app_comm.
  - right. split; [done|]. eexists. split; [done|].
    assert (length l3 = length l1) as Hl3' by (by rewrite Hl3).
    assert (slice_to (5 - Z.of_nat (plen htype)) l3
            = take (5 - plen htype) l3) as ->.
    { unfold slice_to. rewrite (proj2 (Z.leb_le _ _)) by lia.
      f_equal. lia. }
    split.
    + rewrite length_take. lia.
    + rewrite Hperm. apply submseteq_skips_l. rewrite <-Hr3.
      apply fmap_submseteq, sublist_submseteq, sublist_take.
Qed.

(** ** The classification in normal flow *)

(** What [classify] leaves of a hand of the cards [cs] in normal flow:
    the cards, a copy of them in some order, and one hand type with the
    cards of the hand, which are five, or fewer with the rest of the hand
    that makes five. *)
Definition classified (cs : list Card) (s : t) : Prop :=
  cards s = cs ∧ normal_flow s = true
  ∧ rank <$> cards_copy s ≡ₚ rank <$> cs
  ∧ ∃ htype p,
      HIGH_CARD ≤ htype ≤ STRAIGHT_FLUSH ∧ length p = plen htype
      ∧ ((plen htype = 5%nat ∧ hand s = [HType htype; HCards p])
         ∨ ((plen htype < 5)%nat
            ∧ ∃ k, hand s = [HType htype; HCards p; HCards k]
                ∧ (length p + length k = 5)%nat
                ∧ (rank <$> p) ++ (rank <$> k) ⊆+ rank <$> cs)).

(** A hand of five or more distinct cards of the deck whose cards have
    changed is classified. *)
Lemma classify_new pe s :
  NoDup (cards s) → Forall valid_card (cards s) →
  MIN_NUM_CARDS ≤ len (cards s) →
  __update pe s = (true, s) →
  ∃ s', classify true pe s = Some s' ∧ classified (cards s) s'.
Proof.
  intros Hnd Hv Hlen Hup. unfold classify. simpl. rewrite Hup.
  unfold MIN_NUM_CARDS, len in Hlen.
  assert (cards s ≠ []) as Hcs.
  { intros E. rewrite E in Hlen. simpl in Hlen. lia. }
  destruct (classify_core true s Hcs)
    as (s1 & s2 & htype & p & Hs1 & Hs2 & Hc & Hn & Hcc & Hh & Ht & Hp
        & Hhigh & Hsub).
  rewrite Hs1. simpl. rewrite Hs2. simpl.
  set (s3 := if hand s2 is [] then __add HIGH_CARD [__high_card s2] s2
             else s2) in *.
  simpl in *. rewrite Hn.
  destruct (rest_spec s3 htype p Hh Hp) as
    (s' & Hrest & Hc' & Hn' & Hcc' & Hcase).
  - intros Hlt. rewrite Hcc. apply fmap_submseteq.
    destruct (decide (htype = HIGH_CARD)) as [->|Hne]; [|by apply Hsub].
    rewrite (Hhigh eq_refl). apply singleton_submseteq_l.
    destruct (valid_has_high (cards s) Hnd Hv) as (c & Hc0 & Hr); [lia|].
    by eapply high_card_loop_elem.
  - rewrite Hcc. lia.
  - exists s'. split; [done|]. unfold classified.
    split_and!; [congruence|congruence|by rewrite Hcc', Hcc|].
    exists htype, p. split; [done|]. split; [done|].
    rewrite Hcc in Hcase. done.
Qed.

(** A hand that is classified already is left as it is: [__update]
    compares the sorted copy with the sorted cards. *)
Lemma classify_memo pe s cs :
  classified cs s → MIN_NUM_CARDS ≤ len cs → classify true pe s = Some s.
Proof.
  intros (Hc & Hn & Hcc & _) Hlen. unfold classify, __update. simpl.
  rewrite Hc. rewrite bool_decide_eq_false_2 by lia.
  assert (cards_eqb (sorted rank (cards_copy s)) (sorted rank cs) = true)
    as ->; [|done].
  apply cards_eqb_ranks. by apply sorted_keys_perm.
Qed.

Lemma slice_to_all {A} (n : Z) (l : list A) : len l ≤ n → slice_to n l = l.
Proof.
  intros Hn. unfold slice_to, len in *.
  rewrite (proj2 (Z.leb_le _ _)) by lia. apply take_ge. lia.
Qed.

(** The constructor classifies every valid hand. *)
Lemma init_classified cs :
  valid_hand cs → ∃ s, __init__ cs = Some s ∧ classified cs s.
Proof.
  intros (Hnd & Hv & Hmin & Hmax). unfold __init__.
  rewrite slice_to_all by done.
  destruct cs as [|c cs]; [unfold MIN_NUM_CARDS, len in Hmin; simpl in Hmin; lia|].
  apply (classify_new true (__reset false
           (mk (c :: cs) EmptyString false [] [] [] []))); try done.
  unfold __update. simpl. rewrite bool_decide_eq_false_2 by lia.
  by destruct (insert_asc rank c (sorted rank cs)) eqn:E;
    [destruct (sorted rank cs); simpl in E; [done|by case_match]|].
Qed.
(** ** Hands of five and of seven cards *)

(** C2 as stated fails: a pair in five cards is a hand of two cards, and
    the other three are the rest of the hand. *)
Lemma pair_of_five_has_rest :
  hand <$> __init__ [mkCard Spades 2; mkCard Hearts 2; mkCard Diamonds 7;
                     mkCard Clubs 9; mkCard Spades 11]
  = Some [HType PAIR; HCards [mkCard Spades 2; mkCard Hearts 2];
          HCards [mkCard Spades 11; mkCard Clubs 9; mkCard Diamonds 7]]
  ∧ ¬ ∃ s htype primary,
        __init__ [mkCard Spades 2; mkCard Hearts 2; mkCard Diamonds 7;
                  mkCard Clubs 9; mkCard Spades 11] = Some s
        ∧ hand s = [HType htype; HCards primary]
        ∧ length primary = 5%nat.
Proof.
  split; [reflexivity|].
  intros (s & htype & primary & Hs & Hh & _).
  vm_compute in Hs. injection Hs as <-. discriminate Hh.
Qed.

(** C2, as the code has it: a valid hand of five cards is classified with
    exactly one hand type, and the cards of the hand and the rest of the
    hand are five cards together; there is no rest exactly when the cards
    of the hand are five already (straight, flush, full house and straight
    flush). *)
Theorem five_cards_classified cs :
  valid_hand cs → len cs = 5 →
  ∃ s htype primary,
    __init__ cs = Some s ∧ cards s = cs
    ∧ HIGH_CARD ≤ htype ≤ STRAIGHT_FLUSH
    ∧ length primary = plen htype
    ∧ ((length primary = 5%nat ∧ hand s = [HType htype; HCards primary])
       ∨ ((length primary < 5)%nat
          ∧ ∃ kicker,
              hand s = [HType htype; HCards primary; HCards kicker]
              ∧ (length primary + length kicker = 5)%nat)).
Proof.
  intros Hv _.
  destruct (init_classified cs Hv) as
    (s & Hs & Hc & _ & _ & htype & p & Ht & Hp & Hcase).
  exists s, htype, p. split_and!; try done; try apply Ht.
  rewrite Hp. destruct Hcase as [?|(? & k & ? & ? & _)]; [by left|].
  right. split; [done|]. exists k. split; [done|]. by rewrite <-Hp.
Qed.

Lemma five_cards_classified_witness :
  ∃ s htype primary,
    __init__ [mkCard Spades 7; mkCard Hearts 5; mkCard Diamonds 9;
              mkCard Clubs 2; mkCard Spades 11] = Some s
    ∧ cards s = [mkCard Spades 7; mkCard Hearts 5; mkCard Diamonds 9;
                 mkCard Clubs 2; mkCard Spades 11]
    ∧ HIGH_CARD ≤ htype ≤ STRAIGHT_FLUSH
    ∧ length primary = plen htype
    ∧ ((length primary = 5%nat ∧ hand s = [HType htype; HCards primary])
       ∨ ((length primary < 5)%nat
          ∧ ∃ kicker,
              hand s = [HType htype; HCards primary; HCards kicker]
              ∧ (length primary + length kicker = 5)%nat)).
Proof.
  apply five_cards_classified; [|reflexivity].
  split_and!; [|by repeat constructor|done|done].
  apply (bool_decide_unpack _). by vm_compute.
Defined.

(** C5: a valid hand of seven cards is classified, and whenever the
    result has both the cards of the hand and a rest of the hand, the two
    are five cards together. *)
Theorem seven_cards_sum cs :
  valid_hand cs → len cs = 7 →
  ∃ s, __init__ cs = Some s
    ∧ ∀ htype primary kicker,
        hand s = [HType htype; HCards primary; HCards kicker] →
        (length primary + length kicker = 5)%nat.
Proof.
  intros Hv _.
  destruct (init_classified cs Hv) as
    (s & Hs & _ & _ & _ & htype & p & _ & _ & Hcase).
  exists s. split; [done|]. intros htype' p' k' Hh.
  destruct Hcase as [[_ Hh']|(_ & k & Hh' & Hsum & _)];
    rewrite Hh in Hh'; by simplify_eq.
Qed.

Lemma seven_cards_sum_witness :
  ∃ s, __init__ [mkCard Spades 1; mkCard Hearts 1; mkCard Diamonds 13;
                 mkCard Clubs 13; mkCard Spades 12; mkCard Hearts 12;
                 mkCard Diamonds 11] = Some s
    ∧ ∀ htype primary kicker,
        hand s = [HType htype; HCards primary; HCards kicker] →
        (length primary + length kicker = 5)%nat.
Proof.
  apply seven_cards_sum; [|reflexivity].
  split_and!; [|by repeat constructor|done|done].
  apply (bool_decide_unpack _). by vm_compute.
Defined.
(** ** The comparison of two hands *)

Lemma compare_eq_ranks l m :
  length l = length m → _compare_eq l m = true ↔ rank <$> l = rank <$> m.
Proof.
  revert m. induction l as [|c l IH]; intros [|d m] Hlen; csimpl in *;
    try done.
  case_bool_decide as Hr; simpl.
  - split; [done|]. by intros [= ? ?].
  - rewrite IH by lia. rewrite Hr.
    split; [by intros ->|by intros [= ?]].
Qed.

Lemma compare_eq_refl l : _compare_eq l l = true.
Proof. by apply compare_eq_ranks. Qed.

Lemma compare_eq_sym l m : _compare_eq l m = _compare_eq m l.
Proof.
  revert m. induction l as [|c l IH]; intros [|d m]; simpl; try done.
  rewrite IH. repeat case_bool_decide; done || congruence.
Qed.

(** [_compare_lt] answers [None] exactly when [_compare_eq] answers
    [True]. *)
Lemma compare_lt_None l m :
  _compare_lt l m = None ↔ _compare_eq l m = true.
Proof.
  revert m. induction l as [|c l IH]; intros [|d m]; simpl; try done.
  repeat case_bool_decide; simpl; try done; try lia; apply IH.
Qed.

(** [_compare_lt] on the swapped hands gives the opposite answer. *)
Lemma compare_lt_swap l m b :
  _compare_lt l m = Some b ↔ _compare_lt m l = Some (negb b).
Proof.
  revert m. induction l as [|c l IH]; intros [|d m]; simpl; try done.
  repeat case_bool_decide; simpl; try lia; try apply IH;
    destruct b; simpl; split; intros [=]; done.
Qed.

(** The hand type, the cards of the hand and the rest of the hand, if
    any, as [self.__hand] lists them. *)
Definition hand_items (htype : Z) (p : list Card) (ko : option (list Card))
    : list item :=
  HType htype :: HCards p :: match ko with Some k => [HCards k] | None => [] end.

Lemma classified_items cs s :
  classified cs s →
  ∃ htype p ko, hand s = hand_items htype p ko
    ∧ length p = plen htype
    ∧ match ko with
      | None => plen htype = 5%nat
      | Some k => (plen htype < 5)%nat ∧ (length p + length k = 5)%nat
      end.
Proof.
  intros (_ & _ & _ & htype & p & _ & Hp & [[? Hh]|(? & k & Hh & ? & _)]).
  - by exists htype, p, None.
  - by exists htype, p, (Some k).
Qed.

(** What [__eq__] answers for two classified hands. *)
Definition eq_items (t1 : Z) (p1 : list Card) (k1 : option (list Card))
    (t2 : Z) (p2 : list Card) (k2 : option (list Card)) : bool :=
  bool_decide (t1 = t2) && _compare_eq p1 p2
  && match k1, k2 with
     | Some k1, Some k2 => _compare_eq k1 k2
     | _, _ => true
     end.

(** What [__lt__] answers for two classified hands. *)
Definition lt_items (t1 : Z) (p1 : list Card) (k1 : option (list Card))
    (t2 : Z) (p2 : list Card) (k2 : option (list Card)) : bool :=
  bool_decide (t1 < t2)
  || (bool_decide (t1 = t2)
      && match _compare_lt p1 p2 with
         | Some b => b
         | None =>
             match k1, k2 with
             | Some k1, Some k2 => default false (_compare_lt k1 k2)
             | _, _ => false
             end
         end).

Section two_hands.
Context (ca cb : list Card) (a b : t).
Context (Ha : classified ca a) (Hb : classified cb b).
Context (Hla : MIN_NUM_CARDS ≤ len ca) (Hlb : MIN_NUM_CARDS ≤ len cb).

Lemma eq_classified :
  ∃ t1 p1 k1 t2 p2 k2,
    hand a = hand_items t1 p1 k1 ∧ hand b = hand_items t2 p2 k2
    ∧ length p1 = plen t1 ∧ length p2 = plen t2
    ∧ (t1 = t2 → length <$> k1 = length <$> k2)
    ∧ __eq__ a b = Some (Bool (eq_items t1 p1 k1 t2 p2 k2), a, b)
    ∧ __lt__ a b = Some (Bool (lt_items t1 p1 k1 t2 p2 k2), a, b).
Proof.
  destruct (classified_items _ _ Ha) as (t1 & p1 & k1 & Hha & Hp1 & Hk1).
  destruct (classified_items _ _ Hb) as (t2 & p2 & k2 & Hhb & Hp2 & Hk2).
  exists t1, p1, k1, t2, p2, k2.
  assert (t1 = t2 → length <$> k1 = length <$> k2) as Hk.
  { intros <-. destruct k1 as [k1|], k2 as [k2|]; simpl; try done;
      try lia. f_equal. lia. }
  split_and!; try done.
  - unfold __eq__. rewrite (classify_memo true a ca Ha Hla). simpl.
    rewrite (classify_memo true b cb Hb Hlb). simpl.
    rewrite Hha, Hhb. unfold eq_items.
    destruct (decide (t1 = t2)) as [Ht|Ht].
    + specialize (Hk Ht). subst t2.
      rewrite (bool_decide_eq_true_2 (t1 = t1)) by done.
      destruct k1 as [k1|], k2 as [k2|]; try done; simpl;
        rewrite (bool_decide_eq_true_2 (t1 = t1)) by done; simpl;
        by destruct (_compare_eq p1 p2).
    + rewrite (bool_decide_eq_false_2 (t1 = t2)) by done.
      destruct k1 as [k1|], k2 as [k2|]; simpl;
        by rewrite (bool_decide_eq_false_2 (t1 = t2)) by done.
  - unfold __lt__. rewrite (classify_memo true a ca Ha Hla). simpl.
    rewrite (classify_memo true b cb Hb Hlb). simpl.
    rewrite Hha, Hhb. unfold lt_items.
    destruct (decide (t1 < t2)) as [Hlt|Hlt].
    { rewrite (bool_decide_eq_true_2 (t1 < t2)) by done.
      destruct k1 as [k1|], k2 as [k2|]; simpl;
        by rewrite (bool_decide_eq_true_2 (t1 < t2)) by done. }
    rewrite (bool_decide_eq_false_2 (t1 < t2)) by done.
    destruct (decide (t1 = t2)) as [Ht|Ht].
    + specialize (Hk Ht). subst t2.
      rewrite (bool_decide_eq_true_2 (t1 = t1)) by done.
      destruct k1 as [k1|], k2 as [k2|]; try done; simpl;
        rewrite (bool_decide_eq_false_2 (t1 < t1)) by done;
        rewrite (bool_decide_eq_true_2 (t1 = t1)) by done; simpl;
        by destruct (_compare_lt p1 p2).
    + rewrite (bool_decide_eq_false_2 (t1 = t2)) by done.
      destruct k1 as [k1|], k2 as [k2|]; simpl;
        rewrite (bool_decide_eq_false_2 (t1 < t2)) by done;
        by rewrite (bool_decide_eq_false_2 (t1 = t2)) by done.
Qed.

End two_hands.
Lemma eq_items_sym t1 p1 k1 t2 p2 k2 :
  eq_items t1 p1 k1 t2 p2 k2 = eq_items t2 p2 k2 t1 p1 k1.
Proof.
  unfold eq_items. rewrite (compare_eq_sym p1 p2).
  f_equal; [f_equal|].
  - apply bool_decide_ext. naive_solver.
  - destruct k1, k2; try done. apply compare_eq_sym.
Qed.

(** Two classified hands are equal, or one of them is less than the
    other, and only one of the three holds. *)
Lemma items_trichotomy t1 p1 k1 t2 p2 k2 :
  (t1 = t2 → length <$> k1 = length <$> k2) →
  if eq_items t1 p1 k1 t2 p2 k2
  then lt_items t1 p1 k1 t2 p2 k2 = false
       ∧ lt_items t2 p2 k2 t1 p1 k1 = false
  else lt_items t2 p2 k2 t1 p1 k1 = negb (lt_items t1 p1 k1 t2 p2 k2).
Proof.
  intros Hk. unfold eq_items, lt_items.
  destruct (Z.lt_trichotomy t1 t2) as [Hlt|[Heq|Hgt]].
  - rewrite (bool_decide_eq_false_2 (t1 = t2)) by lia.
    rewrite (bool_decide_eq_true_2 (t1 < t2)) by lia.
    rewrite (bool_decide_eq_false_2 (t2 < t1)) by lia.
    by rewrite (bool_decide_eq_false_2 (t2 = t1)) by lia.
  - specialize (Hk Heq). subst t2.
    rewrite (bool_decide_eq_true_2 (t1 = t1)) by lia.
    rewrite (bool_decide_eq_false_2 (t1 < t1)) by lia. simpl.
    destruct (_compare_lt p1 p2) as [b|] eqn:Hp.
    + assert (_compare_eq p1 p2 = false) as ->.
      { destruct (_compare_eq p1 p2) eqn:E; [|done].
        apply compare_lt_None in E. congruence. }
      apply compare_lt_swap in Hp. by rewrite Hp.
    + pose proof Hp as Hp'. apply compare_lt_None in Hp' as ->.
      apply compare_lt_None in Hp. rewrite compare_eq_sym in Hp.
      apply compare_lt_None in Hp as ->. simpl.
      destruct k1 as [k1|], k2 as [k2|]; try done.
      destruct (_compare_lt k1 k2) as [b|] eqn:Hkk.
      * assert (_compare_eq k1 k2 = false) as ->.
        { destruct (_compare_eq k1 k2) eqn:E; [|done].
          apply compare_lt_None in E. congruence. }
        apply compare_lt_swap in Hkk. by rewrite Hkk.
      * pose proof Hkk as Hkk'. apply compare_lt_None in Hkk' as ->.
        apply compare_lt_None in Hkk. rewrite compare_eq_sym in Hkk.
        by apply compare_lt_None in Hkk as ->.
  - rewrite (bool_decide_eq_false_2 (t1 = t2)) by lia.
    rewrite (bool_decide_eq_false_2 (t1 < t2)) by lia.
    rewrite (bool_decide_eq_true_2 (t2 < t1)) by lia.
    by rewrite (bool_decide_eq_false_2 (t2 = t1)) by lia.
Qed.

Lemma eq_items_ranks t1 p1 k1 t2 p2 k2 :
  length p1 = plen t1 → length p2 = plen t2 →
  (t1 = t2 → length <$> k1 = length <$> k2) →
  eq_items t1 p1 k1 t2 p2 k2 = true
  ↔ t1 = t2 ∧ rank <$> p1 = rank <$> p2
    ∧ (λ cs : list Card, rank <$> cs) <$> k1
      = (λ cs : list Card, rank <$> cs) <$> k2.
Proof.
  intros Hp1 Hp2 Hk. unfold eq_items.
  rewrite !andb_true_iff, bool_decide_eq_true.
  split.
  - intros [[Ht Hp] Hkk]. specialize (Hk Ht). subst t2.
    split; [done|]. split; [apply compare_eq_ranks; [congruence|done]|].
    destruct k1 as [k1|], k2 as [k2|]; simpl in *; try done.
    f_equal. apply compare_eq_ranks; [congruence|done].
  - intros (Ht & Hp & Hkk). specialize (Hk Ht). subst t2.
    split; [split; [done|apply compare_eq_ranks; [congruence|done]]|].
    destruct k1 as [k1|], k2 as [k2|]; simpl in *; try done.
    apply compare_eq_ranks; [congruence|congruence].
Qed.

(** The outcome of the comparison of the same two hands the other way
    round. *)
Definition inverse (o : outcome) : outcome :=
  match o with Equal => Equal | Greater => Less | Less => Greater end.

(** The ranks of the cards of [self.__hand[i]], if there is such a list. *)
Definition ranks_at (i : nat) (h : list item) : option (list Z) :=
  (λ cs : list Card, rank <$> cs) <$> get_cards i h.

Lemma hand_items_view htype p ko :
  get_htype (hand_items htype p ko) = Some htype
  ∧ ranks_at 1 (hand_items htype p ko) = Some (rank <$> p)
  ∧ ranks_at 2 (hand_items htype p ko)
    = (λ cs : list Card, rank <$> cs) <$> ko.
Proof. by destruct ko. Qed.

(** Classified hands are left as they are in the store by a method that
    classifies them again. *)
Lemma store_same (σ : list t) i j a b :
  σ !! i = Some a → σ !! j = Some b → <[j:=b]> (<[i:=a]> σ) = σ.
Proof.
  intros Hi Hj. rewrite (list_insert_id σ i a Hi). by apply list_insert_id.
Qed.

(** C4, as the code has it. On one and the same object [compare] compares
    nothing and answers the fixed sentence. On two objects holding
    classified hands it answers that they are equal exactly when the hand
    types are the same and the cards of the hands, and the rests of the
    hands, have the same ranks position by position, so also when the two
    objects were made of the same cards; the answer for the same two
    objects the other way round is the inverse one. Both hands stay as
    they were. *)
Theorem compare_consistent ca cb :
  valid_hand ca → valid_hand cb →
  ∃ a b, __init__ ca = Some a ∧ __init__ cb = Some b
    ∧ ∀ (σ : list t) (self other : nat),
        σ !! self = Some a → σ !! other = Some b → other ≠ self →
        (compare self other σ = Some (Hands Equal, σ)
         ↔ get_htype (hand a) = get_htype (hand b)
           ∧ ranks_at 1 (hand a) = ranks_at 1 (hand b)
           ∧ ranks_at 2 (hand a) = ranks_at 2 (hand b))
        ∧ compare self self σ = Some (Itself, σ)
        ∧ (ca = cb → compare self other σ = Some (Hands Equal, σ))
        ∧ ∃ o, compare self other σ = Some (Hands o, σ)
            ∧ compare other self σ = Some (Hands (inverse o), σ).
Proof.
  intros Hva Hvb.
  destruct (init_classified ca Hva) as (a & Hia & Ha).
  destruct (init_classified cb Hvb) as (b & Hib & Hb).
  destruct Hva as (_ & _ & Hla & _). destruct Hvb as (_ & _ & Hlb & _).
  exists a, b. split; [done|]. split; [done|].
  intros σ self other Hself Hother Hne.
  destruct (eq_classified ca cb a b Ha Hb Hla Hlb) as
    (t1 & p1 & k1 & t2 & p2 & k2 & Hha & Hhb & Hp1 & Hp2 & Hk & Heq & _).
  destruct (eq_classified cb ca b a Hb Ha Hlb Hla) as
    (t2' & p2' & k2' & t1' & p1' & k1' & Hhb' & Hha' & _ & _ & _ & Heq' & Hlt').
  rewrite Hha in Hha'. rewrite Hhb in Hhb'.
  assert (t1' = t1 ∧ p1' = p1 ∧ k1' = k1) as (-> & -> & ->).
  { unfold hand_items in Hha'. destruct k1, k1'; by simplify_eq. }
  assert (t2' = t2 ∧ p2' = p2 ∧ k2' = k2) as (-> & -> & ->).
  { unfold hand_items in Hhb'. destruct k2, k2'; by simplify_eq. }
  destruct (eq_classified ca cb a b Ha Hb Hla Hlb) as
    (t1' & p1' & k1' & t2' & p2' & k2' & Hha'' & Hhb'' & _ & _ & _ & _ & Hlt).
  rewrite Hha in Hha''. rewrite Hhb in Hhb''.
  assert (t1' = t1 ∧ p1' = p1 ∧ k1' = k1) as (-> & -> & ->).
  { unfold hand_items in Hha''. destruct k1, k1'; by simplify_eq. }
  assert (t2' = t2 ∧ p2' = p2 ∧ k2' = k2) as (-> & -> & ->).
  { unfold hand_items in Hhb''. destruct k2, k2'; by simplify_eq. }
  pose proof (items_trichotomy t1 p1 k1 t2 p2 k2 Hk) as Htri.
  pose proof (eq_items_ranks t1 p1 k1 t2 p2 k2 Hp1 Hp2 Hk) as Hranks.
  pose proof (store_same σ self other a b Hself Hother) as Hσ.
  pose proof (store_same σ other self b a Hother Hself) as Hσ'.
  assert (compare self other σ
          = Some (Hands (if eq_items t1 p1 k1 t2 p2 k2 then Equal
                         else if lt_items t2 p2 k2 t1 p1 k1 then Greater
                         else Less), σ))
    as Hab.
  { unfold compare. rewrite bool_decide_eq_false_2 by done.
    rewrite Hself, Hother. simpl. rewrite Heq. simpl.
    destruct (eq_items t1 p1 k1 t2 p2 k2); [by rewrite Hσ|].
    rewrite Hlt'. simpl. rewrite Hσ.
    by destruct (lt_items t2 p2 k2 t1 p1 k1). }
  assert (compare other self σ
          = Some (Hands (if eq_items t1 p1 k1 t2 p2 k2 then Equal
                         else if lt_items t1 p1 k1 t2 p2 k2 then Greater
                         else Less), σ))
    as Hba.
  { unfold compare. rewrite bool_decide_eq_false_2 by done.
    rewrite Hself, Hother. simpl. rewrite Heq'. simpl.
    rewrite (eq_items_sym t2).
    destruct (eq_items t1 p1 k1 t2 p2 k2); [by rewrite Hσ'|].
    rewrite Hlt. simpl. rewrite Hσ'.
    by destruct (lt_items t1 p1 k1 t2 p2 k2). }
  assert (compare self other σ = Some (Hands Equal, σ)
          ↔ get_htype (hand a) = get_htype (hand b)
            ∧ ranks_at 1 (hand a) = ranks_at 1 (hand b)
            ∧ ranks_at 2 (hand a) = ranks_at 2 (hand b)) as Hiff.
  { rewrite Hab, Hha, Hhb.
    destruct (hand_items_view t1 p1 k1) as (-> & -> & ->).
    destruct (hand_items_view t2 p2 k2) as (-> & -> & ->).
    destruct (eq_items t1 p1 k1 t2 p2 k2) eqn:E.
    + split; [intros _|done].
      by destruct (proj1 Hranks eq_refl) as (-> & -> & ->).
    + split; [by destruct (lt_items t2 p2 k2 t1 p1 k1)|].
      intros (Ht & Hp & Hkk). exfalso.
      assert (false = true) as Hf; [|done].
      apply Hranks. split_and!; [by simplify_eq|by simplify_eq|done]. }
  split_and!.
  - exact Hiff.
  - unfold compare. rewrite bool_decide_eq_true_2 by done.
    by rewrite Hself.
  - intros ->. apply Hiff. by simplify_eq.
  - rewrite Hab, Hba. destruct (eq_items t1 p1 k1 t2 p2 k2).
    + by exists Equal.
    + rewrite Htri. destruct (lt_items t1 p1 k1 t2 p2 k2); simpl;
        by eexists.
Qed.

(** C4 as stated fails when the two hands are one object: [compare]
    answers the fixed sentence then, not that the hands are equal. *)
Lemma compare_same_object :
  ∃ a, __init__ [mkCard Spades 2; mkCard Hearts 2; mkCard Diamonds 7;
                 mkCard Clubs 9; mkCard Spades 11] = Some a
    ∧ compare 0 0 [a] = Some (Itself, [a])
    ∧ ¬ ∃ σ, compare 0 0 [a] = Some (Hands Equal, σ).
Proof.
  eexists. split; [reflexivity|]. split; [reflexivity|].
  by intros (σ & Hσ).
Qed.

#[global] Instance valid_card_dec c : Decision (valid_card c).
Proof. unfold valid_card. apply _. Defined.

#[global] Instance valid_hand_dec cs : Decision (valid_hand cs).
Proof. unfold valid_hand. apply _. Defined.

Lemma compare_consistent_witness :
  ∃ a b,
    __init__ [mkCard Spades 2; mkCard Hearts 2; mkCard Diamonds 7;
              mkCard Clubs 9; mkCard Spades 11] = Some a
    ∧ __init__ [mkCard Clubs 2; mkCard Diamonds 2; mkCard Hearts 7;
                mkCard Spades 9; mkCard Spades 1] = Some b
    ∧ (compare 0 1 [a; b] = Some (Hands Equal, [a; b])
       ↔ get_htype (hand a) = get_htype (hand b)
         ∧ ranks_at 1 (hand a) = ranks_at 1 (hand b)
         ∧ ranks_at 2 (hand a) = ranks_at 2 (hand b))
    ∧ compare 0 0 [a; b] = Some (Itself, [a; b])
    ∧ ∃ o, compare 0 1 [a; b] = Some (Hands o, [a; b])
        ∧ compare 1 0 [a; b] = Some (Hands (inverse o), [a; b]).
Proof.
  destruct (compare_consistent
              [mkCard Spades 2; mkCard Hearts 2; mkCard Diamonds 7;
               mkCard Clubs 9; mkCard Spades 11]
              [mkCard Clubs 2; mkCard Diamonds 2; mkCard Hearts 7;
               mkCard Spades 9; mkCard Spades 1])
    as (a & b & Ha & Hb & Hcmp);
    [apply (bool_decide_unpack _); by vm_compute..|].
  exists a, b. split; [exact Ha|]. split; [exact Hb|].
  destruct (Hcmp [a; b] 0%nat 1%nat eq_refl eq_refl) as (Hiff & Hself & _ & Hinv);
    [done|].
  exact (conj Hiff (conj Hself Hinv)).
Defined.
(** ** The low straight *)

Lemma elem_of_concat {A} (x : A) (ls : list (list A)) :
  x ∈ concat ls ↔ ∃ l, x ∈ l ∧ l ∈ ls.
Proof.
  induction ls as [|l0 ls IH]; simpl.
  - split; [by intros ?%elem_of_nil|]. by intros (? & _ & ?%elem_of_nil).
  - rewrite elem_of_app, IH. split.
    + intros [?|(l & ? & ?)];
        [exists l0; split; [done|apply list_elem_of_here]|].
      exists l. split; [done|by apply list_elem_of_further].
    + intros (l & Hx & [->|Hl]%elem_of_cons); [by left|].
      right. by exists l.
Qed.

Lemma grouped_keys {K A} `{EqDecision K} (key : A → K) d l k :
  grouped key d l → k ∈ d.*1 ↔ k ∈ key <$> l.
Proof.
  intros (_ & Hall & Hperm). rewrite Forall_forall in Hall. split.
  - intros (g & -> & Hg)%list_elem_of_fmap.
    destruct (Hall g Hg) as [Hne Hkey].
    destruct g.2 as [|x g2] eqn:E; [done|].
    apply Forall_cons in Hkey as [<- _].
    apply list_elem_of_fmap. exists x. split; [done|].
    rewrite <-Hperm. apply elem_of_concat. exists (x :: g2).
    split; [apply list_elem_of_here|].
    apply list_elem_of_fmap. exists g. by rewrite E.
  - intros (x & -> & Hx)%list_elem_of_fmap. rewrite <-Hperm in Hx.
    apply elem_of_concat in Hx as (g2 & Hx & (g & -> & Hg)%list_elem_of_fmap).
    destruct (Hall g Hg) as [_ Hkey]. rewrite Forall_forall in Hkey.
    rewrite (Hkey x Hx). apply list_elem_of_fmap. by exists g.
Qed.

Lemma sorted_ge_nodup l : Sorted Z.ge l → NoDup l → StronglySorted Z.gt l.
Proof.
  intros Hs Hnd. apply Sorted_StronglySorted in Hs; [|intros ???; lia].
  induction Hs as [|x l Hs IH Hall]; [constructor|].
  apply NoDup_cons in Hnd as [Hx Hnd]. constructor; [by apply IH|].
  rewrite Forall_forall in *. intros y Hy. specialize (Hall y Hy).
  assert (x ≠ y) by (by intros ->). lia.
Qed.

(** In a list of integers in strictly descending order, the least
    element is the last one. *)
Lemma desc_last m l :
  StronglySorted Z.gt l → Forall (λ x, m ≤ x) l → m ∈ l →
  ∃ l', l = l' ++ [m] ∧ StronglySorted Z.gt l' ∧ Forall (λ x, m + 1 ≤ x) l'.
Proof.
  induction 1 as [|x l Hs IH Hgt]; intros Hall Hm.
  { by apply elem_of_nil in Hm. }
  apply Forall_cons in Hall as [Hx Hall].
  apply elem_of_cons in Hm as [->|Hm].
  - destruct l as [|y l].
    + exists []. split; [done|]. split; constructor.
    + exfalso. apply Forall_cons in Hgt as [? _].
      apply Forall_cons in Hall as [? _]. lia.
  - destruct (IH Hall Hm) as (l' & -> & Hs' & Hall').
    exists (x :: l'). split; [done|].
    apply Forall_app in Hgt as [Hgt1 Hgt2].
    apply Forall_cons in Hgt2 as [? _].
    split; constructor; [done|done|lia|done].
Qed.

(** Distinct ranks of the deck in descending order that hold 5, 4, 3, 2
    and the ace end with them. *)
Lemma desc_ends_with_wheel l :
  Sorted Z.ge l → NoDup l → Forall (λ x, 1 ≤ x) l →
  (∀ r, r ∈ [1; 2; 3; 4; 5] → r ∈ l) →
  ∃ l', l = l' ++ [5; 4; 3; 2; 1].
Proof.
  intros Hs Hnd Hall Hin. apply sorted_ge_nodup in Hs; [|done].
  assert (∀ (x m : Z) k, x ∈ k ++ [m] → x ≠ m → x ∈ k) as Hsnoc.
  { intros x m k [?|Hx]%elem_of_app; [done|]. apply list_elem_of_singleton in Hx. done. }
  assert (∀ r, 1 ≤ r ≤ 5 → r ∈ l) as Hin'.
  { intros r Hr. apply Hin.
    assert (r = 1 ∨ r = 2 ∨ r = 3 ∨ r = 4 ∨ r = 5) as Hcases by lia.
    rewrite !elem_of_cons. tauto. }
  destruct (desc_last 1 l Hs Hall) as (l1 & -> & Hs1 & Hall1);
    [apply Hin'; lia|].
  destruct (desc_last 2 l1 Hs1 Hall1) as (l2 & -> & Hs2 & Hall2).
  { eapply Hsnoc; [apply Hin'|]; lia. }
  destruct (desc_last 3 l2 Hs2 Hall2) as (l3 & -> & Hs3 & Hall3).
  { eapply Hsnoc; [eapply Hsnoc; [apply Hin'|]|]; lia. }
  destruct (desc_last 4 l3 Hs3 Hall3) as (l4 & -> & Hs4 & Hall4).
  { eapply Hsnoc; [eapply Hsnoc; [eapply Hsnoc; [apply Hin'|]|]|]; lia. }
  destruct (desc_last 5 l4 Hs4 Hall4) as (l5 & -> & Hs5 & Hall5).
  { eapply Hsnoc;
      [eapply Hsnoc; [eapply Hsnoc; [eapply Hsnoc; [apply Hin'|]|]|]|]; lia. }
  exists l5. by rewrite <-!app_assoc.
Qed.

(** The scan of [__straight] finds a straight as soon as one of its
    windows passes the test. *)
Lemma straight_scan_found rs s idxs i g1 g2 :
  nonempty_groups rs → Forall (λ j, (j + 5 ≤ length rs)%nat) idxs →
  i ∈ idxs → rs !! (i + 4)%nat = Some g1 → rs !! i = Some g2 →
  g2.1 = g1.1 + 4 →
  ∃ p, straight_scan rs s idxs = Some (true, __add STRAIGHT p s)
    ∧ length p = 5%nat.
Proof.
  intros Hne Hidx Hi H1 H2 Hw.
  induction Hidx as [|j idxs Hj Hidx IH]; [by apply elem_of_nil in Hi|].
  simpl. change (Z.to_nat __SEQUENCE) with 5%nat.
  destruct (lookup_lt_is_Some_2 rs (j + 5 - 1)) as [h1 Hh1]; [lia|].
  destruct (lookup_lt_is_Some_2 rs j) as [h2 Hh2]; [lia|].
  rewrite Hh1, Hh2. simpl.
  destruct (first_cards_some rs (seq j 5) Hne) as (cs & Hcs & Hl).
  { apply Forall_forall. intros k Hk%elem_of_seq. lia. }
  simpl in Hcs.
  case_bool_decide as Hm.
  - rewrite Hcs. simpl. by exists cs.
  - apply elem_of_cons in Hi as [->|Hi]; [|by apply IH].
    exfalso. apply Hm. replace (j + 5 - 1)%nat with (j + 4)%nat in Hh1 by lia.
    simplify_eq. unfold __SEQUENCE. lia.
Qed.

(** [__rank] on a hand that holds a 5, a 4, a 3, a 2 and an ace: the
    straight is found, the window of the ace, rank 1, and the 5 passing
    the test [5 == 1 + 4]. *)
Lemma rank_wheel s cs :
  hand s = [] → grouped rank (ranks s) cs → Forall valid_card cs →
  (∀ r, r ∈ [1; 2; 3; 4; 5] → r ∈ rank <$> cs) →
  ∃ p, __rank s = Some (__add STRAIGHT p s) ∧ length p = 5%nat.
Proof.
  intros Hh Hg Hv Hin. unfold __rank. rewrite Hh.
  pose proof (sort_desc_perm fst (ranks s)) as Hperm.
  pose proof (sort_desc_sorted fst (ranks s)) as Hsorted.
  set (rs := sort_desc fst (ranks s)) in *.
  assert (nonempty_groups rs) as Hne.
  { eapply nonempty_groups_perm; [symmetry; exact Hperm|].
    by eapply grouped_nonempty_groups. }
  destruct (desc_ends_with_wheel rs.*1) as (l' & Hkeys).
  - done.
  - rewrite Hperm. by destruct Hg.
  - apply Forall_forall. intros k Hk. rewrite Hperm in Hk.
    apply (grouped_keys rank _ _ _ Hg) in Hk.
    apply list_elem_of_fmap in Hk as (c & -> & Hc).
    rewrite Forall_forall in Hv. by destruct (Hv c Hc).
  - intros r Hr. rewrite Hperm. apply (grouped_keys rank _ _ _ Hg). by apply Hin.
  - assert (length rs = (length l' + 5)%nat) as Hlen.
    { rewrite <-(length_fmap fst rs), Hkeys, length_app. done. }
    assert (∀ j x, (l' ++ [5; 4; 3; 2; 1]) !! j = Some x →
                   ∃ g, rs !! j = Some g ∧ g.1 = x) as Hlook.
    { intros j x Hx. rewrite <-Hkeys, list_lookup_fmap in Hx.
      destruct (rs !! j) as [g|]; simplify_eq/=. by exists g. }
    destruct (Hlook (length l' + 4)%nat 1) as (g_last & Hglast & Hk1).
    { rewrite lookup_app_r by lia.
      by replace (length l' + 4 - length l')%nat with 4%nat by lia. }
    destruct (Hlook (length l') 5) as (g5 & Hg5 & Hk5).
    { rewrite lookup_app_r by lia. by rewrite Nat.sub_diag. }
    assert (last rs = Some g_last) as ->.
    { rewrite last_lookup. rewrite <-Hglast. f_equal. lia. }
    simpl. rewrite bool_decide_eq_true_2 by done.
    assert (g_last ∈ rs) as Hglin by (by eapply list_elem_of_lookup_2).
    unfold nonempty_groups in Hne. pose proof Hne as Hne'.
    rewrite Forall_forall in Hne'. specialize (Hne' _ Hglin).
    destruct g_last.2 as [|ace ?] eqn:Eace; [done|]. simpl.
    unfold __straight.
    rewrite (proj2 (Z.leb_le _ _)) by (unfold __SEQUENCE, len; lia).
    destruct (lookup_lt_is_Some_2 rs (Z.to_nat (__SEQUENCE - 2))) as [g3 Hg3];
      [unfold __SEQUENCE; lia|].
    rewrite Hg3. simpl.
    case_bool_decide as Hten.
    + destruct (first_cards_some rs (range (__SEQUENCE - 1)) Hne)
        as (p & Hp & Hl).
      { eapply Forall_impl; [apply range_bound|]. simpl.
        unfold __SEQUENCE. intros i Hi. lia. }
      simpl in Hp. rewrite Hp. simpl. eexists. split; [done|].
      simpl. by rewrite Hl.
    + destruct (straight_scan_found rs s (range (len rs - __SEQUENCE + 1))
                  (length l') g_last g5 Hne) as (p & -> & Hp); try done.
      * eapply Forall_impl; [apply range_bound|]. simpl.
        unfold len, __SEQUENCE. intros i Hi. lia.
      * unfold range. apply elem_of_seq. unfold len, __SEQUENCE. lia.
      * lia.
      * simpl. by exists p.
Qed.
Lemma filter_all {A} (P : A → Prop) `{∀ x, Decision (P x)} (l : list A) :
  Forall P l → filter P l = l.
Proof.
  induction 1 as [|x l Hx _ IH]; [done|].
  by rewrite filter_cons_True, IH.
Qed.

Lemma submseteq_filter_length {A} (P : A → Prop) `{∀ x, Decision (P x)}
    (g l : list A) :
  g ⊆+ l → Forall P g → (length g ≤ length (filter P l))%nat.
Proof.
  intros [k Hk]%submseteq_Permutation HP.
  rewrite Hk, filter_app, length_app, (filter_all P g HP). lia.
Qed.

Lemma suit_values_big d d' r :
  suit_values d = Some (d', Some r) → ∃ g, g ∈ d ∧ MIN_NUM_CARDS ≤ len g.2.
Proof.
  revert d'. induction d as [|[k h] d IH]; intros d'; simpl; [done|].
  destruct (Z.leb_spec MIN_NUM_CARDS (len h)) as [Hlen|Hlen].
  - intros _. exists (k, h). split; [apply list_elem_of_here|done].
  - destruct (suit_values d) as [[d'' r']|]; [|done]. simpl.
    intros [= <- ->]. destruct (IH _ eq_refl) as (g & ? & ?).
    exists g. split; [by apply list_elem_of_further|done].
Qed.

(** A hand added by [__suit] comes from a suit of five cards or more. *)
Lemma suit_added_big s s' :
  __suit s = Some s' → hand s = [] → hand s' ≠ [] →
  ∃ g, g ∈ suits s ∧ MIN_NUM_CARDS ≤ len g.2.
Proof.
  unfold __suit. intros Hs Hh Hh'. case_match; [|by simplify_eq].
  destruct (suit_values (suits s)) as [[d r]|] eqn:Hv; [|done].
  simpl in Hs. destruct r as [[htype cs]|]; [|by simplify_eq].
  by eapply suit_values_big.
Qed.

Lemma update_fresh pe s :
  cards_copy s = [] → MIN_NUM_CARDS ≤ len (cards s) →
  __update pe s = (true, s).
Proof.
  intros Hcc Hlen. unfold __update. rewrite bool_decide_eq_false_2 by lia.
  rewrite Hcc. simpl.
  destruct (cards s) as [|c cs]; [unfold MIN_NUM_CARDS, len in Hlen; simpl in Hlen; lia|].
  simpl. by destruct (insert_asc rank c (sorted rank cs)) eqn:E;
    [destruct (sorted rank cs); simpl in E; [done|by case_match]|].
Qed.

(** A hand of five cards gets no rest of the hand. *)
Lemma rest_five s htype p :
  hand s = [HType htype; HCards p] → length p = 5%nat → __rest s = Some s.
Proof.
  intros Hh Hp. unfold __rest. rewrite Hh. simpl.
  unfold get_cards. simpl. unfold MIN_NUM_CARDS, len. rewrite Hp.
  by rewrite bool_decide_eq_false_2 by lia.
Qed.

(** C1, as the code has it: the classifier does find the low straight. A
    valid hand that holds a 5, a 4, a 3, a 2 and an ace is classified
    with five cards as a straight, or as a flush or a straight flush;
    the last two only when five of its cards are of one suit. *)
Theorem wheel_is_classified cs :
  valid_hand cs → (∀ r, r ∈ [1; 2; 3; 4; 5] → r ∈ rank <$> cs) →
  ∃ s htype primary,
    __init__ cs = Some s ∧ hand s = [HType htype; HCards primary]
    ∧ length primary = 5%nat
    ∧ (htype = STRAIGHT ∨ htype = FLUSH ∨ htype = STRAIGHT_FLUSH)
    ∧ ((∀ su, (length (filter (λ c, suit c = su) cs) < 5)%nat) →
       htype = STRAIGHT).
Proof.
  intros (Hnd & Hv & Hmin & Hmax) Hin. unfold __init__.
  rewrite slice_to_all by done.
  destruct cs as [|c0 cs0] eqn:Ecs;
    [unfold MIN_NUM_CARDS, len in Hmin; simpl in Hmin; lia|].
  rewrite <-Ecs in *. clear Ecs.
  set (s0 := __reset false (mk cs EmptyString false [] [] [] [])).
  unfold classify. simpl.
  rewrite (update_fresh true s0) by done.
  destruct (populate_reset true s0) as (Hgs & Hgr & Hc0 & Hn0 & Hcc0 & Hh0).
  set (sp := populate (__reset true s0)) in *. simpl in Hgs, Hgr, Hc0, Hcc0.
  destruct (suit_some sp Hh0) as (s1 & Hsuit & Hr1 & Hh1).
  pose proof (suit_base _ _ Hsuit) as (Hc1 & Hn1 & Hcc1).
  rewrite Hsuit. simpl.
  destruct Hh1 as [Hh1|(htype & p & Hh1 & Hp & Ht)].
  - rewrite <-Hr1 in Hgr.
    destruct (rank_wheel s1 cs Hh1 Hgr Hv Hin) as (p & Hrank & Hp).
    pose proof (add_base STRAIGHT p s1) as (_ & Hn3 & _).
    pose proof (add_hand STRAIGHT p s1) as Hh3.
    set (s3 := __add STRAIGHT p s1) in *.
    rewrite Hh1 in Hh3. simpl in Hh3.
    rewrite Hrank. simpl. rewrite Hh3, Hn3, Hn1, Hn0.
    exists s3, STRAIGHT, p. rewrite (rest_five s3 STRAIGHT p) by done.
    split_and!; try done. by left.
  - assert (__rank s1 = Some s1) as -> by (unfold __rank; by rewrite Hh1).
    simpl. rewrite Hh1, Hn1, Hn0.
    exists s1, htype, p. rewrite (rest_five s1 htype p) by done.
    split_and!; try done.
    { by destruct Ht as [-> | ->]; [right; right|right; left]. }
    intros Hfew. exfalso.
    destruct (suit_added_big sp s1 Hsuit Hh0) as (g & Hg & Hbig);
      [by rewrite Hh1|].
    pose proof (grouped_group_sub suit _ _ _ Hgs Hg) as Hsub.
    destruct Hgs as (_ & Hall & _). rewrite Forall_forall in Hall.
    destruct (Hall g Hg) as [_ Hsame].
    pose proof (submseteq_filter_length (λ c, suit c = g.1) g.2 cs Hsub Hsame).
    specialize (Hfew g.1). unfold MIN_NUM_CARDS, len in Hbig. lia.
Qed.

(** C1 as stated fails: five cards whose only run is 5, 4, 3, 2, ace are
    classified as a straight flush when they are of one suit, by the scan
    of the suit, and as a straight otherwise, by the scan of the ranks. *)
Lemma wheel_is_found :
  hand <$> __init__ [mkCard Spades 5; mkCard Spades 4; mkCard Spades 3;
                     mkCard Spades 2; mkCard Spades 1]
  = Some [HType STRAIGHT_FLUSH;
          HCards [mkCard Spades 5; mkCard Spades 4; mkCard Spades 3;
                  mkCard Spades 2; mkCard Spades 1]]
  ∧ hand <$> __init__ [mkCard Spades 5; mkCard Hearts 4; mkCard Diamonds 3;
                       mkCard Clubs 2; mkCard Spades 1]
    = Some [HType STRAIGHT;
            HCards [mkCard Spades 5; mkCard Hearts 4; mkCard Diamonds 3;
                    mkCard Clubs 2; mkCard Spades 1]].
Proof. split; reflexivity. Qed.

Lemma wheel_is_classified_witness :
  ∃ s htype primary,
    __init__ [mkCard Spades 1; mkCard Hearts 13; mkCard Diamonds 3;
              mkCard Clubs 2; mkCard Spades 4; mkCard Hearts 9;
              mkCard Diamonds 5] = Some s
    ∧ hand s = [HType htype; HCards primary]
    ∧ length primary = 5%nat
    ∧ (htype = STRAIGHT ∨ htype = FLUSH ∨ htype = STRAIGHT_FLUSH)
    ∧ ((∀ su, (length (filter (λ c, suit c = su)
                         [mkCard Spades 1; mkCard Hearts 13; mkCard Diamonds 3;
                          mkCard Clubs 2; mkCard Spades 4; mkCard Hearts 9;
                          mkCard Diamonds 5]) < 5)%nat) →
       htype = STRAIGHT).
Proof.
  apply wheel_is_classified.
  - apply (bool_decide_unpack _). by vm_compute.
  - intros r Hr. apply (bool_decide_unpack _).
    repeat (apply elem_of_cons in Hr as [->|Hr]; [by vm_compute|]).
    by apply elem_of_nil in Hr.
Defined.

(** ** More of the classifier's methods *)

(** [has] and [__call__]: the flag and the state. A type outside the
    range of the hand types is refused before the hand is classified. *)
Definition has (htype : Z) (s : t) : option (bool * t) :=
  if negb (bool_decide (0 ≤ htype < STRAIGHT_FLUSH + 1)) then Some (false, s)
  else
    s ← classify true true s;
    if hand s is [] then Some (false, s)
    else h0 ← get_htype (hand s); Some (bool_decide (htype = h0), s).

(** [__le__]: [__lt__] first, and [__eq__] when it answers [False]. *)
Definition __le__ (self other : t) : option (answer * t * t) :=
  '(cmp_lt, self, other) ← __lt__ self other;
  match cmp_lt with
  | NotImplemented | Bool true => Some (cmp_lt, self, other)
  | Bool false => __eq__ self other
  end.

(** [clear]: the constructor of the base class and [__reset]. *)
Definition clear (s : t) : t := __reset false (Hand_init s).

(** [__len__]. *)
Definition __len__ (s : t) : Z := len (hand s).

(** ** Classifying again, and asking for a hand type *)

Lemma classify_normal_flow pe s s' :
  classify true pe s = Some s' →
  normal_flow s' = true ∨ (s' = s ∧ MIN_NUM_CARDS ≤ len (cards s)
                           ∧ cards_eqb (sorted rank (cards_copy s))
                               (sorted rank (cards s)) = true).
Proof.
  unfold classify, __update. simpl.
  case_bool_decide as Hlen; [intros [= <-]; by left|].
  destruct (cards_eqb _ _) eqn:Heq.
  { intros [= <-]. right. split_and!; try done. lia. }
  destruct (__suit _) as [s1|] eqn:H1; [|done]. simpl.
  destruct (__rank s1) as [s2|] eqn:H2; [|done]. simpl.
  apply suit_base in H1 as (_ & Hn1 & _).
  apply rank_base in H2 as (_ & Hn2 & _).
  destruct (populate_reset true s) as (_ & _ & _ & Hn0 & _).
  set (s3 := if hand s2 is [] then __add HIGH_CARD [__high_card s2] s2
             else s2).
  assert (normal_flow s3 = true) as Hn3.
  { unfold s3. destruct (hand s2).
    - destruct (add_base HIGH_CARD [__high_card s2] s2) as (_ & -> & _).
      congruence.
    - congruence. }
  rewrite Hn3. intros Hrest. left.
  unfold __rest in Hrest.
  repeat (case_match; simplify_option_eq); done.
Qed.

(** X1: a second [classify] in normal flow changes nothing: the hand
    that [classify] leaves is found classified by [__update], for hands
    that are too small as well. *)
Theorem classify_twice pe pe' s s' :
  NoDup (cards s) → Forall valid_card (cards s) →
  classify true pe s = Some s' → classify true pe' s' = Some s'.
Proof.
  intros Hnd Hv Hc.
  destruct (decide (len (cards s) < MIN_NUM_CARDS)) as [Hlen|Hlen].
  { unfold classify, __update in *. simpl in *.
    rewrite bool_decide_eq_true_2 in Hc by done. simplify_eq. simpl.
    by rewrite bool_decide_eq_true_2 by done. }
  destruct (__update pe s) as [go s0] eqn:Hup.
  assert (s0 = s) as ->.
  { unfold __update in Hup. rewrite bool_decide_eq_false_2 in Hup by done.
    by destruct (cards_eqb _ _); simplify_eq. }
  destruct go.
  - destruct (classify_new pe s Hnd Hv) as (s'' & Hc' & Hcl); [lia|done|].
    rewrite Hc in Hc'. simplify_eq.
    eapply classify_memo; [done|lia].
  - assert (s' = s) as ->.
    { unfold classify in Hc. simpl in Hc. rewrite Hup in Hc. by simplify_eq. }
    unfold classify in *. simpl in *.
    assert (__update pe' s = (false, s)) as ->; [|done].
    unfold __update in *. rewrite bool_decide_eq_false_2 in * by done.
    by destruct (cards_eqb _ _); simplify_eq.
Qed.

Lemma classify_twice_witness :
  ∃ s', classify true true
          (mk [mkCard Spades 2; mkCard Hearts 2; mkCard Diamonds 7;
               mkCard Clubs 9; mkCard Spades 11; mkCard Hearts 1]
              EmptyString false [] [] [] []) = Some s'
        ∧ classify true false s' = Some s'.
Proof.
  eexists. split; [reflexivity|].
  eapply (classify_twice true false
            (mk [mkCard Spades 2; mkCard Hearts 2; mkCard Diamonds 7;
                 mkCard Clubs 9; mkCard Spades 11; mkCard Hearts 1]
                EmptyString false [] [] [] [])).
  - apply (bool_decide_unpack _). by vm_compute.
  - apply (bool_decide_unpack _). by vm_compute.
  - reflexivity.
Defined.

(** X2: [has] on a valid classified hand answers [True] for the hand type
    of the classification and [False] for every other value, in and out
    of the range of the hand types, and leaves the object as it is. *)
Theorem has_exactly_one cs :
  valid_hand cs →
  ∃ s htype, __init__ cs = Some s
    ∧ get_htype (hand s) = Some htype
    ∧ HIGH_CARD ≤ htype ≤ STRAIGHT_FLUSH
    ∧ ∀ h, has h s = Some (bool_decide (h = htype), s).
Proof.
  intros Hv. destruct (init_classified cs Hv) as (s & Hs & Hcl).
  destruct Hv as (_ & _ & Hmin & _).
  pose proof (classify_memo true s cs Hcl Hmin) as Hmemo.
  destruct (classified_items cs s Hcl) as (htype & p & ko & Hh & _).
  destruct Hcl as (_ & _ & _ & htype' & p' & Ht & _ & Hcase).
  assert (htype' = htype) as ->.
  { destruct Hcase as [[_ Hh']|(_ & k & Hh' & _)]; rewrite Hh in Hh';
      unfold hand_items in Hh'; by simplify_eq. }
  exists s, htype. split; [done|]. split; [by rewrite Hh|]. split; [done|].
  intros h. unfold has.
  unfold HIGH_CARD, STRAIGHT_FLUSH in *.
  case_bool_decide as Hr; simpl.
  - rewrite Hmemo. simpl. rewrite Hh. simpl. done.
  - rewrite bool_decide_eq_false_2 by lia. done.
Qed.

Lemma has_exactly_one_witness :
  ∃ s htype,
    __init__ [mkCard Spades 2; mkCard Hearts 2; mkCard Diamonds 2;
              mkCard Clubs 5; mkCard Spades 5] = Some s
    ∧ get_htype (hand s) = Some htype
    ∧ HIGH_CARD ≤ htype ≤ STRAIGHT_FLUSH
    ∧ ∀ h, has h s = Some (bool_decide (h = htype), s).
Proof.
  apply has_exactly_one. apply (bool_decide_unpack _). by vm_compute.
Defined.

(** X3: [has] answers [False] for every value when the hand holds fewer
    than five cards, whatever was classified before. *)
Theorem has_too_few_cards h s :
  len (cards s) < MIN_NUM_CARDS → ∃ s', has h s = Some (false, s').
Proof.
  intros Hlen. unfold has. case_match; simpl; [by eexists|].
  unfold classify, __update. simpl.
  rewrite bool_decide_eq_true_2 by done. simpl. by eexists.
Qed.

Lemma has_too_few_cards_witness :
  ∃ s', has PAIR (mk [mkCard Spades 2; mkCard Hearts 2] EmptyString true
                     [] [] [] [HType PAIR; HCards []]) = Some (false, s').
Proof. apply has_too_few_cards. by vm_compute. Defined.

(** ** The order of the hands *)

Lemma compare_lt_trans l m n :
  _compare_lt l m = Some true → _compare_lt m n = Some true →
  _compare_lt l n = Some true.
Proof.
  revert m n. induction l as [|c l IH]; intros [|d m] [|e n]; simpl;
    try done.
  repeat case_bool_decide; simpl; try done; try lia; apply IH.
Qed.

(** [_compare_lt] and [_compare_eq] look at the ranks only. *)
Lemma compare_lt_ranks l l' m m' :
  rank <$> l = rank <$> l' → rank <$> m = rank <$> m' →
  _compare_lt l m = _compare_lt l' m'.
Proof.
  revert l' m m'.
  induction l as [|c l IH]; intros [|c' l'] [|d m] [|d' m']; csimpl;
    intros Hl Hm; simplify_eq; try done.
  rewrite (IH l' m m') by done.
  replace (rank c') with (rank c) by done.
  by replace (rank d') with (rank d) by done.
Qed.

Lemma lt_items_trans t1 p1 k1 t2 p2 k2 t3 p3 k3 :
  length p1 = plen t1 → length p2 = plen t2 → length p3 = plen t3 →
  (t1 = t2 → length <$> k1 = length <$> k2) →
  (t2 = t3 → length <$> k2 = length <$> k3) →
  lt_items t1 p1 k1 t2 p2 k2 = true → lt_items t2 p2 k2 t3 p3 k3 = true →
  lt_items t1 p1 k1 t3 p3 k3 = true.
Proof.
  intros Hp1 Hp2 Hp3 Hk12 Hk23. unfold lt_items.
  rewrite !orb_true_iff, !andb_true_iff, !bool_decide_eq_true.
  intros [Hlt12|[Ht12 H12]] [Hlt23|[Ht23 H23]].
  - left. lia.
  - left. lia.
  - left. lia.
  - right. split; [congruence|]. subst t2 t3.
    specialize (Hk12 eq_refl). specialize (Hk23 eq_refl).
    destruct (_compare_lt p1 p2) as [b12|] eqn:E12.
    + subst b12. destruct (_compare_lt p2 p3) as [b23|] eqn:E23.
      * subst b23. by rewrite (compare_lt_trans p1 p2 p3).
      * apply compare_lt_None, compare_eq_ranks in E23; [|congruence].
        by rewrite <-(compare_lt_ranks p1 p1 p2 p3), E12.
    + apply compare_lt_None, compare_eq_ranks in E12; [|congruence].
      rewrite (compare_lt_ranks p1 p2 p3 p3) by done.
      destruct (_compare_lt p2 p3) as [b23|] eqn:E23; [done|].
      destruct k1 as [k1|], k2 as [k2|], k3 as [k3|]; simpl in *;
        try done.
      destruct (_compare_lt k1 k2) as [b12|] eqn:F12.
      * simpl in H12. subst b12.
        destruct (_compare_lt k2 k3) as [b23|] eqn:F23.
        -- simpl in H23. subst b23. by rewrite (compare_lt_trans k1 k2 k3).
        -- apply compare_lt_None, compare_eq_ranks in F23; [|congruence].
           by rewrite <-(compare_lt_ranks k1 k1 k2 k3), F12.
      * done.
Qed.

Lemma hand_items_inj t1 p1 k1 t2 p2 k2 :
  hand_items t1 p1 k1 = hand_items t2 p2 k2 → t1 = t2 ∧ p1 = p2 ∧ k1 = k2.
Proof. unfold hand_items. destruct k1, k2; intros; by simplify_eq. Qed.

(** X4: [<] is a strict order on classified hands: no hand is less than
    itself, and [a < b] and [b < c] give [a < c]. *)
Theorem lt_strict_order ca cb cc :
  valid_hand ca → valid_hand cb → valid_hand cc →
  ∃ a b c, __init__ ca = Some a ∧ __init__ cb = Some b ∧ __init__ cc = Some c
    ∧ __lt__ a a = Some (Bool false, a, a)
    ∧ (__lt__ a b = Some (Bool true, a, b) →
       __lt__ b c = Some (Bool true, b, c) →
       __lt__ a c = Some (Bool true, a, c)).
Proof.
  intros Hva Hvb Hvc.
  destruct (init_classified ca Hva) as (a & Hia & Ha).
  destruct (init_classified cb Hvb) as (b & Hib & Hb).
  destruct (init_classified cc Hvc) as (c & Hic & Hc).
  destruct Hva as (_ & _ & Hla & _). destruct Hvb as (_ & _ & Hlb & _).
  destruct Hvc as (_ & _ & Hlc & _).
  exists a, b, c. split_and!; try done.
  - destruct (eq_classified ca ca a a Ha Ha Hla Hla) as
      (t1 & p1 & k1 & t2 & p2 & k2 & Hh1 & Hh2 & _ & _ & Hk & _ & ->).
    rewrite Hh1 in Hh2. apply hand_items_inj in Hh2 as (<- & <- & <-).
    pose proof (items_trichotomy t1 p1 k1 t1 p1 k1 Hk) as Htri.
    assert (eq_items t1 p1 k1 t1 p1 k1 = true) as Heq.
    { unfold eq_items. rewrite bool_decide_eq_true_2 by done.
      rewrite compare_eq_refl. simpl. destruct k1; [|done].
      apply compare_eq_refl. }
    rewrite Heq in Htri. by destruct Htri as [-> _].
  - destruct (eq_classified ca cb a b Ha Hb Hla Hlb) as
      (t1 & p1 & k1 & t2 & p2 & k2 & Hh1 & Hh2 & Hp1 & Hp2 & Hk12 & _ & ->).
    destruct (eq_classified cb cc b c Hb Hc Hlb Hlc) as
      (t2' & p2' & k2' & t3 & p3 & k3 & Hh2' & Hh3 & _ & Hp3 & Hk23 & _ & ->).
    rewrite Hh2 in Hh2'. apply hand_items_inj in Hh2' as (<- & <- & <-).
    destruct (eq_classified ca cc a c Ha Hc Hla Hlc) as
      (t1' & p1' & k1' & t3' & p3' & k3' & Hh1' & Hh3' & _ & _ & _ & _ & ->).
    rewrite Hh1 in Hh1'. apply hand_items_inj in Hh1' as (<- & <- & <-).
    rewrite Hh3 in Hh3'. apply hand_items_inj in Hh3' as (<- & <- & <-).
    intros [= H12] [= H23].
    by rewrite (lt_items_trans t1 p1 k1 t2 p2 k2 t3 p3 k3
                  Hp1 Hp2 Hp3 Hk12 Hk23 H12 H23).
Qed.

Lemma lt_strict_order_witness :
  ∃ a b c,
    __init__ [mkCard Spades 7; mkCard Hearts 5; mkCard Diamonds 9;
              mkCard Clubs 2; mkCard Spades 11] = Some a
    ∧ __init__ [mkCard Spades 2; mkCard Hearts 2; mkCard Diamonds 7;
                mkCard Clubs 9; mkCard Spades 11] = Some b
    ∧ __init__ [mkCard Spades 2; mkCard Hearts 2; mkCard Diamonds 2;
                mkCard Clubs 5; mkCard Spades 5] = Some c
    ∧ __lt__ a a = Some (Bool false, a, a)
    ∧ (__lt__ a b = Some (Bool true, a, b) →
       __lt__ b c = Some (Bool true, b, c) →
       __lt__ a c = Some (Bool true, a, c)).
Proof.
  apply lt_strict_order; apply (bool_decide_unpack _); by vm_compute.
Defined.

(** X5: [<=] on two classified hands is [<] or [==]; of two hands one is
    [<=] the other, and both are exactly when the hands are [==]. *)
Theorem le_total ca cb :
  valid_hand ca → valid_hand cb →
  ∃ a b r1 r2, __init__ ca = Some a ∧ __init__ cb = Some b
    ∧ __le__ a b = Some (Bool r1, a, b) ∧ __le__ b a = Some (Bool r2, b, a)
    ∧ (r1 = true ↔ __lt__ a b = Some (Bool true, a, b)
                   ∨ __eq__ a b = Some (Bool true, a, b))
    ∧ (r1 = true ∨ r2 = true)
    ∧ (r1 = true ∧ r2 = true ↔ __eq__ a b = Some (Bool true, a, b)).
Proof.
  intros Hva Hvb.
  destruct (init_classified ca Hva) as (a & Hia & Ha).
  destruct (init_classified cb Hvb) as (b & Hib & Hb).
  destruct Hva as (_ & _ & Hla & _). destruct Hvb as (_ & _ & Hlb & _).
  destruct (eq_classified ca cb a b Ha Hb Hla Hlb) as
    (t1 & p1 & k1 & t2 & p2 & k2 & Hh1 & Hh2 & Hp1 & Hp2 & Hk & Heq & Hlt).
  destruct (eq_classified cb ca b a Hb Ha Hlb Hla) as
    (t2' & p2' & k2' & t1' & p1' & k1' & Hh2' & Hh1' & _ & _ & _ & Heq' & Hlt').
  rewrite Hh1 in Hh1'. apply hand_items_inj in Hh1' as (<- & <- & <-).
  rewrite Hh2 in Hh2'. apply hand_items_inj in Hh2' as (<- & <- & <-).
  pose proof (items_trichotomy t1 p1 k1 t2 p2 k2 Hk) as Htri.
  rewrite (eq_items_sym t2) in Heq'.
  exists a, b, (lt_items t1 p1 k1 t2 p2 k2 || eq_items t1 p1 k1 t2 p2 k2),
    (lt_items t2 p2 k2 t1 p1 k1 || eq_items t1 p1 k1 t2 p2 k2).
  split; [done|]. split; [done|].
  assert (__le__ a b = Some (Bool (lt_items t1 p1 k1 t2 p2 k2
                                   || eq_items t1 p1 k1 t2 p2 k2), a, b))
    as ->.
  { unfold __le__. rewrite Hlt. simpl.
    destruct (lt_items t1 p1 k1 t2 p2 k2); [done|]. by rewrite Heq. }
  assert (__le__ b a = Some (Bool (lt_items t2 p2 k2 t1 p1 k1
                                   || eq_items t1 p1 k1 t2 p2 k2), b, a))
    as ->.
  { unfold __le__. rewrite Hlt'. simpl.
    destruct (lt_items t2 p2 k2 t1 p1 k1); [done|]. by rewrite Heq'. }
  rewrite Hlt, Heq.
  destruct (eq_items t1 p1 k1 t2 p2 k2).
  - destruct Htri as [-> ->]. simpl. split_and!; try done.
    + split; [by right|done].
    + by left.
  - rewrite Htri. destruct (lt_items t1 p1 k1 t2 p2 k2); simpl;
      split_and!; try done; try (by left); try (by right).
    + split; [by left|done].
    + split; [by intros [_ ?]|done].
    + split; [done|]. by intros [[=]|[=]].
    + split; [by intros [? _]|done].
Qed.

Lemma le_total_witness :
  ∃ a b r1 r2,
    __init__ [mkCard Spades 7; mkCard Hearts 5; mkCard Diamonds 9;
              mkCard Clubs 2; mkCard Spades 11] = Some a
    ∧ __init__ [mkCard Spades 2; mkCard Hearts 2; mkCard Diamonds 7;
                mkCard Clubs 9; mkCard Spades 11] = Some b
    ∧ __le__ a b = Some (Bool r1, a, b) ∧ __le__ b a = Some (Bool r2, b, a)
    ∧ (r1 = true ↔ __lt__ a b = Some (Bool true, a, b)
                   ∨ __eq__ a b = Some (Bool true, a, b))
    ∧ (r1 = true ∨ r2 = true)
    ∧ (r1 = true ∧ r2 = true ↔ __eq__ a b = Some (Bool true, a, b)).
Proof.
  apply le_total; apply (bool_decide_unpack _); by vm_compute.
Defined.
